(** * ESP32 electronic voting machine: the firmware of [code/evm/evm.ino]

    A shallow embedding of the sketch: the EEPROM helpers, the tally
    functions, the results screen, and the blocking menu functions turned
    into a key-driven machine whose state records which [while] loop of the
    sketch is currently polling the keypad. *)

From Stdlib Require Import ZArith Ascii String Lia.
From stdpp Require Import base tactics list.

Local Open Scope Z_scope.

(** ** Characters and [int]

    Keys are the [char] values returned by [getDebouncedKey]; the NUL
    character means that no key was reported in this iteration. *)

Definition ord (c : ascii) : Z := Z.of_N (N_of_ascii c).

Definition NUL : ascii := "000"%char.

(** [lo <= key && key <= hi] on [char]. *)
Definition char_between (lo hi key : ascii) : bool :=
  (ord lo <=? ord key) && (ord key <=? ord hi).

Definition char_eq (a b : ascii) : bool := ord a =? ord b.

(** [int] is 32 bits wide on the ESP32; [wrap32] is the two's complement
    wrap-around of an arithmetic result. It is written out where digits
    typed by the user can take [tempMaxVoters] past the range of [int] and
    where [showGraph] multiplies a count by a height given by its caller;
    the sums and increments of vote counts stay far inside it (six counts
    of at most 65535 each). *)
Definition wrap32 (x : Z) : Z := (x + 2 ^ 31) mod 2 ^ 32 - 2 ^ 31.

(** Integer division of the CPU: truncating, and an exception
    ([IntegerDivideByZero]) when the divisor is zero. *)
Definition int_div (a b : Z) : option Z :=
  if b =? 0 then None else Some (Z.quot a b).

(** The six candidate slots, in the order of [for (int i = 0; i < 6; i++)]. *)
Definition slots : list Z := [0; 1; 2; 3; 4; 5].

(** ** The EEPROM object

    [EEPROM] is an object of the Arduino core, not of the sketch: the sketch
    only uses [read], [write] and [commit], which form the interface below. *)

Class EEPROMClass (E : Type) := {
  EEPROM_read : E -> Z -> Z;
  EEPROM_write : E -> Z -> Z -> E;
  EEPROM_commit : E -> E
}.

(** [#define EEPROM_SIZE 512] *)
Definition EEPROM_SIZE : Z := 512.

(** The RAM-backed emulation of the ESP32 core: an array of [uint8_t] cells;
    [read] outside the array gives 0, [write] outside it is dropped, the
    value written is converted to [uint8_t]. *)
Record RamEEPROM := { cells : Z -> Z }.

Definition in_eeprom (address : Z) : bool :=
  (0 <=? address) && (address <? EEPROM_SIZE).

Definition ram_read (e : RamEEPROM) (address : Z) : Z :=
  if in_eeprom address then cells e address mod 256 else 0.

Definition ram_write (e : RamEEPROM) (address value : Z) : RamEEPROM :=
  if in_eeprom address
  then {| cells := fun a => if a =? address then value mod 256 else cells e a |}
  else e.

#[export] Instance ram_eeprom : EEPROMClass RamEEPROM := {
  EEPROM_read := ram_read;
  EEPROM_write := ram_write;
  EEPROM_commit := fun e => e
}.

(** A store with worn-out cells: a write to a cell of [worn] is lost. It is
    the fault the read-back after a vote is there to detect. *)
Record WornEEPROM := { backing : RamEEPROM; worn : Z -> bool }.

#[export] Instance worn_eeprom : EEPROMClass WornEEPROM := {
  EEPROM_read := fun e a => ram_read (backing e) a;
  EEPROM_write := fun e a v =>
    if worn e a then e
    else {| backing := ram_write (backing e) a v; worn := worn e |};
  EEPROM_commit := fun e => e
}.

(** ** What the collaborators are asked to do *)

Inductive ToneKind :=
| init_tone | access_tone | incorrect_pass_tone | buzz | eep_rst_tone.

(** The line under the results: [Winners: C.. C..] on a tie, else
    [Winner: C..]; the numbers are the ones printed (slot + 1). *)
Inductive WinnerLine :=
| Winners (printed : list Z)
| Winner (printed : Z).

Record ResultsView := {
  perCandidateCounts : list Z;
  totalCast : Z;
  totalCap : Z;
  percentage : Z;
  winnerLine : WinnerLine
}.

Inductive Screen :=
| MainMenuScreen
| PasswordPrompt
| MaskedInput (stars : nat)
| AccessGranted
| IncorrectPassword
| PasswordMustBe4Digits
| AdminMenuScreen
| EnableCandidatesScreen
| CandidateToggled (printed : Z) (enabled : bool)
| ResultsScreen (view : ResultsView)
| GraphScreen (bars : list (Z * bool))
| SetMaxVotersScreen (saved : Z)
| PendingMaxVoters (shown : Z)
| SavedScreen
| EepromResetScreen
| VotingBoothScreen
| UnlockHint
| VoteNotSaved
| VoteRecorded
| SavedFor (printed : Z)
| CandidateDisabled
| VoteBoxFull
| Highlight (label : string).

Inductive Event :=
| Show (s : Screen)
| Leds (ledState : Z)
| Tone (t : ToneKind).

(** The function passed to [showPasswordBox]. *)
Inductive Callback := showAdminMenu | showVotingMenu | resetEEPROM.

(** Which loop of the sketch is polling the keypad. [Panicked] is the
    sketch stopped by a CPU exception: no key is polled any more until the
    power is cycled. *)
Inductive Frame :=
| InLoop
| InResetMenu
| InPasswordBox (callbackFunction : Callback) (enteredPassword : string)
| InAdminMenu
| InEnableCandidates
| InResults
| InGraph
| InSetMaxVoters (tempMaxVoters : Z)
| InVotingMenu (inputLocked : bool)
| Panicked.

(** ** The sketch, over any EEPROM *)

Section Firmware.
Context {E : Type} `{EEPROMClass E}.

(** The globals of the sketch. *)
Record Globals := {
  EEPROM : E;
  votes : list Z;
  enabledCandidates : list bool;
  maxVoters : Z
}.

Definition default_maxVoters : Z := 100.

Definition with_EEPROM (g : Globals) (e : E) : Globals :=
  {| EEPROM := e; votes := votes g;
     enabledCandidates := enabledCandidates g; maxVoters := maxVoters g |}.

(** *** EEPROM helpers *)

Definition writeIntToEEPROM (e : E) (address value : Z) : E :=
  let e := EEPROM_write e address (Z.land value 255) in
  let e := EEPROM_write e (address + 1) (Z.shiftr value 8) in
  EEPROM_commit e.

Definition readIntFromEEPROM (e : E) (address : Z) : Z :=
  let lowerByte := EEPROM_read e address in
  let upperByte := EEPROM_read e (address + 1) in
  Z.lor (Z.shiftl upperByte 8) lowerByte.

Definition all_votes_count (e : E) : Z :=
  fold_left (fun vote_t i => vote_t + readIntFromEEPROM e (300 + i * 2))
            slots 0.

Definition updateLEDs (e : E) : Z :=
  fold_left (fun ledState i =>
               let isEnabled := negb (EEPROM_read e (i + 100) =? 0) in
               if isEnabled then Z.lor ledState (Z.shiftl 1 i) else ledState)
            slots 0.

(** *** showResults *)

(** First loop: [(maxVotes, winner, totalVotesCast)]. *)
Definition results_scan (e : E) : Z * Z * Z :=
  fold_left (fun '(maxVotes, winner, totalVotesCast) i =>
               let candidateVotes := readIntFromEEPROM e (300 + i * 2) in
               let totalVotesCast := totalVotesCast + candidateVotes in
               if candidateVotes >? maxVotes
               then (candidateVotes, i, totalVotesCast)
               else (maxVotes, winner, totalVotesCast))
            slots (0, -1, 0).

(** Second loop: [tie]. *)
Definition results_tie (e : E) (maxVotes winner : Z) : bool :=
  fold_left (fun tie i =>
               if (readIntFromEEPROM e (300 + i * 2) =? maxVotes)
                  && negb (i =? winner)
               then true else tie)
            slots false.

(** The loop printing [C<i+1>] for every slot at [maxVotes]. *)
Definition results_winners (e : E) (maxVotes : Z) : list Z :=
  fold_left (fun printed i =>
               if readIntFromEEPROM e (300 + i * 2) =? maxVotes
               then printed ++ [i + 1] else printed)
            slots [].

Definition results_winner_line (e : E) : WinnerLine :=
  let '(maxVotes, winner, _) := results_scan e in
  if results_tie e maxVotes winner
  then Winners (results_winners e maxVotes)
  else Winner (winner + 1).

(** What the screen shows; [None] when the percentage divides by zero. *)
Definition showResults (e : E) : option ResultsView :=
  let totalVotes := readIntFromEEPROM e 200 in
  let '(_, _, totalVotesCast) := results_scan e in
  let shown := map (fun i => readIntFromEEPROM e (300 + i * 2)) slots in
  match int_div (totalVotesCast * 100) totalVotes with
  | None => None
  | Some pct =>
      Some {| perCandidateCounts := shown;
              totalCast := totalVotesCast;
              totalCap := totalVotes;
              percentage := pct;
              winnerLine := results_winner_line e |}
  end.

(** *** showGraph: bar height and winner colour of the six bars *)

Definition graph_maxVotes (e : E) : Z :=
  fold_left (fun maxVotes i =>
               let candidateVotes := readIntFromEEPROM e (300 + i * 2) in
               if candidateVotes >? maxVotes then candidateVotes else maxVotes)
            slots 0.

Definition showGraph (e : E) (graphBaseY : Z) : list (Z * bool) :=
  let maxHeight := graphBaseY - 10 in
  let maxVotes := graph_maxVotes e in
  map (fun i =>
         let candidateVotes := readIntFromEEPROM e (300 + i * 2) in
         let barHeight :=
           if maxVotes =? 0 then 0
           else Z.quot (wrap32 (candidateVotes * maxHeight)) maxVotes in
         let isWinner := (candidateVotes =? maxVotes) && (maxVotes >? 0) in
         (barHeight, isWinner))
      slots.

(** *** The machine *)

(** [suspended] counts the [showAdminMenu] loops on the call stack that
    wait for a callee to return; every other caller returns as soon as
    its callee does, down to [loop]. *)
Record Machine := {
  globals : Globals;
  frame : Frame;
  suspended : nat
}.

Definition goto (m : Machine) (f : Frame) : Machine :=
  {| globals := globals m; frame := f; suspended := suspended m |}.

Definition with_globals (m : Machine) (g : Globals) : Machine :=
  {| globals := g; frame := frame m; suspended := suspended m |}.

Definition call_from_admin (m : Machine) (f : Frame) : Machine :=
  {| globals := globals m; frame := f; suspended := S (suspended m) |}.

(** A function returns: control resumes in the innermost waiting
    [showAdminMenu] loop, or in [loop] when there is none. *)
Definition do_return (m : Machine) : Machine :=
  match suspended m with
  | O => goto m InLoop
  | S n => {| globals := globals m; frame := InAdminMenu; suspended := n |}
  end.

(** Entering a function up to its polling loop. *)
Definition enter_showResetMenu (m : Machine) : Machine * list Event :=
  (goto m InResetMenu, [Show MainMenuScreen]).

Definition enter_showPasswordBox (cb : Callback) (m : Machine)
  : Machine * list Event :=
  (goto m (InPasswordBox cb ""), [Show PasswordPrompt]).

Definition enter_showAdminMenu (m : Machine) : Machine * list Event :=
  (goto m InAdminMenu, [Show AdminMenuScreen]).

Definition enter_showResults (m : Machine) : Machine * list Event :=
  match showResults (EEPROM (globals m)) with
  | Some view => (goto m InResults, [Show (ResultsScreen view)])
  | None => (goto m Panicked, [])
  end.

Definition enter_showGraph (m : Machine) : Machine * list Event :=
  (goto m InGraph, [Show (GraphScreen (showGraph (EEPROM (globals m)) 80))]).

Definition enter_setMaxVoters (m : Machine) : Machine * list Event :=
  let mvx := readIntFromEEPROM (EEPROM (globals m)) 200 in
  (goto m (InSetMaxVoters 0), [Show (SetMaxVotersScreen mvx)]).

Definition enter_showVotingMenu (m : Machine) : Machine * list Event :=
  (goto m (InVotingMenu false),
   [Leds (updateLEDs (EEPROM (globals m))); Show VotingBoothScreen]).

Definition run_resetEEPROM (m : Machine) : Machine * list Event :=
  let g := globals m in
  let '(e, vs) :=
    fold_left (fun '(e, vs) i =>
                 let e := EEPROM_write e (i + 100) 1 in
                 let vs := <[Z.to_nat i := 0]> vs in
                 let e := writeIntToEEPROM e (300 + i * 2) 0 in
                 (e, vs))
              slots (EEPROM g, votes g) in
  let e := EEPROM_commit e in
  let e := writeIntToEEPROM e 200 default_maxVoters in
  let g := {| EEPROM := e; votes := vs;
              enabledCandidates := enabledCandidates g;
              maxVoters := maxVoters g |} in
  let '(m, shown) := enter_showAdminMenu (with_globals m g) in
  (m, Show EepromResetScreen :: Tone eep_rst_tone :: shown).

Definition invoke (cb : Callback) (m : Machine) : Machine * list Event :=
  match cb with
  | showAdminMenu => enter_showAdminMenu m
  | showVotingMenu => enter_showVotingMenu m
  | resetEEPROM => run_resetEEPROM m
  end.

(** *** One polled key in each loop *)

(** [loop]. *)
Definition loop_key (m : Machine) (key : ascii) : Machine * list Event :=
  if char_eq key NUL then (m, [])
  else if char_eq key "1" then enter_showPasswordBox showAdminMenu m
  else if char_eq key "2" then enter_showPasswordBox showVotingMenu m
  else if char_eq key "*" then enter_showResetMenu m
  else (m, []).

(** The loop of [showResetMenu] (the main menu); the line chosen is redrawn
    highlighted before anything else happens. *)
Definition showResetMenu_key (m : Machine) (key : ascii)
  : Machine * list Event :=
  if char_eq key "1" then
    let '(m, shown) := enter_showPasswordBox showAdminMenu m in
    (m, Show (Highlight "1: Admin Mode") :: shown)
  else if char_eq key "2" then
    let '(m, shown) := enter_showPasswordBox showVotingMenu m in
    (m, Show (Highlight "2: Voting Mode") :: shown)
  else if char_eq key "*" then (do_return m, [Show (Highlight "*: Select")])
  else (m, []).

Definition correctPassword : string := "1101".

(** The loop of [showPasswordBox]. *)
Definition showPasswordBox_key (m : Machine) (callbackFunction : Callback)
           (enteredPassword : string) (key : ascii) : Machine * list Event :=
  if char_eq key NUL then (m, [])
  else if char_eq key "*" then
    if (String.length enteredPassword =? 4)%nat then
      if String.eqb enteredPassword correctPassword then
        let '(m, shown) := invoke callbackFunction m in
        (m, Show AccessGranted :: Tone access_tone :: shown)
      else
        (goto m (InPasswordBox callbackFunction ""),
         [Show IncorrectPassword; Tone incorrect_pass_tone])
    else
      (goto m (InPasswordBox callbackFunction ""),
       [Show PasswordMustBe4Digits; Tone incorrect_pass_tone])
  else if char_eq key "#" then
    (goto m (InPasswordBox callbackFunction ""), [Show PasswordPrompt])
  else if (String.length enteredPassword <? 8)%nat
          && char_between "0" "6" key then
    let enteredPassword := (enteredPassword ++ String key "")%string in
    (goto m (InPasswordBox callbackFunction enteredPassword),
     [Show (MaskedInput (String.length enteredPassword))])
  else (m, []).

(** The loop of [showAdminMenu]. *)
Definition showAdminMenu_key (m : Machine) (key : ascii)
  : Machine * list Event :=
  if char_eq key "1" then
    (call_from_admin m InEnableCandidates, [Show EnableCandidatesScreen])
  else if char_eq key "2" then enter_showResults (call_from_admin m InAdminMenu)
  else if char_eq key "3" then enter_setMaxVoters (call_from_admin m InAdminMenu)
  else if char_eq key "4" then
    enter_showPasswordBox resetEEPROM (call_from_admin m InAdminMenu)
  else if char_eq key "#" then enter_showResetMenu m
  else (m, []).

(** The loop of [enableCandidates]. *)
Definition enableCandidates_key (m : Machine) (key : ascii)
  : Machine * list Event :=
  let g := globals m in
  if char_between "1" "6" key then
    let candidateIndex := ord key - ord "1" in
    let toggled := negb (enabledCandidates g !!! Z.to_nat candidateIndex) in
    let enabled := <[Z.to_nat candidateIndex := toggled]> (enabledCandidates g) in
    let leds := updateLEDs (EEPROM g) in
    let e := EEPROM_write (EEPROM g) (100 + candidateIndex)
                          (if toggled then 1 else 0) in
    let e := EEPROM_commit e in
    let g := {| EEPROM := e; votes := votes g;
                enabledCandidates := enabled; maxVoters := maxVoters g |} in
    (with_globals m g,
     [Leds leds; Show EnableCandidatesScreen;
      Show (CandidateToggled (candidateIndex + 1) toggled);
      Leds (updateLEDs e)])
  else if char_eq key "#" then enter_showAdminMenu m
  else (m, []).

(** The loop at the end of [showResults]. *)
Definition showResults_key (m : Machine) (key : ascii)
  : Machine * list Event :=
  if char_eq key "*" then enter_showGraph m
  else if char_eq key "#" then (do_return m, [])
  else (m, []).

(** The loop at the end of [showGraph]. *)
Definition showGraph_key (m : Machine) (key : ascii)
  : Machine * list Event :=
  if char_eq key "#" then enter_showResults m else (m, []).

(** The value [setMaxVoters] stores for the digits entered. *)
Definition committed_maxVoters (tempMaxVoters : Z) : Z :=
  if (tempMaxVoters >=? 1) && (tempMaxVoters <=? 65535)
  then tempMaxVoters else 65535.

(** The loop of [setMaxVoters]. *)
Definition setMaxVoters_key (m : Machine) (tempMaxVoters : Z) (key : ascii)
  : Machine * list Event :=
  let g := globals m in
  if char_between "0" "9" key then
    let tempMaxVoters := wrap32 (tempMaxVoters * 10 + (ord key - ord "0")) in
    (goto m (InSetMaxVoters tempMaxVoters),
     [Show (PendingMaxVoters
              (if (tempMaxVoters >? 0) && (tempMaxVoters <=? 65535)
               then tempMaxVoters else 65535))])
  else if char_eq key "#" then
    let maxVoters := committed_maxVoters tempMaxVoters in
    let e := writeIntToEEPROM (EEPROM g) 200 maxVoters in
    let g := {| EEPROM := e; votes := votes g;
                enabledCandidates := enabledCandidates g;
                maxVoters := maxVoters |} in
    let '(m, shown) := enter_showAdminMenu (with_globals m g) in
    (m, Show SavedScreen :: shown)
  else (m, []).

(** One iteration of the loop of [showVotingMenu]: the globals, the
    value of [inputLocked] and what is displayed. *)
Definition showVotingMenu_key (g : Globals) (inputLocked : bool) (key : ascii)
  : Globals * bool * list Event :=
  let avc := all_votes_count (EEPROM g) in
  let mvc := readIntFromEEPROM (EEPROM g) 200 in
  if char_between "1" "6" key && negb inputLocked then
    let candidateIndex := ord key - ord "1" in
    let candidateAddress := 300 + candidateIndex * 2 in
    if (enabledCandidates g !!! Z.to_nat candidateIndex) && (avc <? mvc) then
      let currentVote := readIntFromEEPROM (EEPROM g) candidateAddress in
      let currentVote := currentVote + 1 in
      let e := writeIntToEEPROM (EEPROM g) candidateAddress currentVote in
      let savedValue := readIntFromEEPROM e candidateAddress in
      if negb (savedValue =? currentVote) then
        (with_EEPROM g e, inputLocked, [Show VoteNotSaved])
      else
        (with_EEPROM g e, true,
         [Show VoteRecorded; Tone buzz; Show (SavedFor (candidateIndex + 1));
          Show VotingBoothScreen; Show UnlockHint])
    else
      (g, inputLocked,
       [Show (if negb (enabledCandidates g !!! Z.to_nat candidateIndex)
              then CandidateDisabled else VoteBoxFull);
        Show VotingBoothScreen])
  else if char_eq key "*" then
    (g, false, [Show VotingBoothScreen; Show UnlockHint])
  else (g, inputLocked, []).

(** One polled key of the whole sketch. *)
Definition step (m : Machine) (key : ascii) : Machine * list Event :=
  match frame m with
  | InLoop => loop_key m key
  | InResetMenu => showResetMenu_key m key
  | InPasswordBox callbackFunction enteredPassword =>
      showPasswordBox_key m callbackFunction enteredPassword key
  | InAdminMenu => showAdminMenu_key m key
  | InEnableCandidates => enableCandidates_key m key
  | InResults => showResults_key m key
  | InGraph => showGraph_key m key
  | InSetMaxVoters tempMaxVoters => setMaxVoters_key m tempMaxVoters key
  | InVotingMenu inputLocked =>
      let '(g, inputLocked, shown) :=
        showVotingMenu_key (globals m) inputLocked key in
      ({| globals := g; frame := InVotingMenu inputLocked;
          suspended := suspended m |}, shown)
  | Panicked => (m, [])
  end.

(** [setup]: the globals are loaded from the EEPROM, then the main menu
    is shown. *)
Definition setup (e : E) : Machine * list Event :=
  let leds := updateLEDs e in
  let maxVoters := readIntFromEEPROM e 200 in
  let '(enabled, vs) :=
    fold_left (fun '(enabled, vs) i =>
                 let enabled :=
                   <[Z.to_nat i := negb (EEPROM_read e (i + 100) =? 0)]> enabled in
                 let vs := <[Z.to_nat i := EEPROM_read e (i + 300)]> vs in
                 (enabled, vs))
              slots
              ([true; true; true; true; true; true], [0; 0; 0; 0; 0; 0]) in
  let maxVoters := readIntFromEEPROM e 200 in
  let g := {| EEPROM := e; votes := vs; enabledCandidates := enabled;
              maxVoters := maxVoters |} in
  let '(m, shown) :=
    enter_showResetMenu {| globals := g; frame := InLoop; suspended := 0 |} in
  (m, Tone init_tone :: Leds leds :: shown).

(** What the device is given: a key reported by [getDebouncedKey], or a
    power cycle, which runs [setup] again on the stored bytes. *)
Inductive Input :=
| Key (key : ascii)
| PowerCycle.

Definition feed (m : Machine) (i : Input) : Machine :=
  match i with
  | Key key => fst (step m key)
  | PowerCycle => fst (setup (EEPROM (globals m)))
  end.

Definition run (m : Machine) (inputs : list Input) : Machine :=
  fold_left feed inputs m.

(** The bound on the votes cast, on the stored bytes. *)
Definition cap_bound (e : E) : Prop :=
  0 <= all_votes_count e <= readIntFromEEPROM e 200.

End Firmware.

Arguments Globals E : clear implicits.
Arguments Machine E : clear implicits.

(** ** Stores and inputs used below *)

(** The vote count of slot [i], as every function of the sketch reads it. *)
Definition voteCount {E : Type} `{EEPROMClass E} (e : E) (i : Z) : Z :=
  readIntFromEEPROM e (300 + i * 2).

(** An erased EEPROM: every cell reads 0xFF. *)
Definition blank : RamEEPROM := {| cells := fun _ => 255 |}.

(** An EEPROM whose cells are all 0. *)
Definition zeroed : RamEEPROM := {| cells := fun _ => 0 |}.

(** The stored bytes after [resetEEPROM]: cap 100, every slot enabled,
    every count 0. *)
Definition reset_defaults : RamEEPROM :=
  EEPROM (globals (fst (run_resetEEPROM (fst (setup blank))))).

(** A sequence of key presses, one per character. *)
Definition keys (s : string) : list Input := map Key (list_ascii_of_string s).

(** Power-on with the reset defaults stored. *)
Definition fresh_device : Machine RamEEPROM := fst (setup reset_defaults).

(** The stored bytes after the reset defaults and one vote for C1 and one
    for C2. *)
Definition two_votes_store : RamEEPROM :=
  EEPROM (globals (run fresh_device (keys "21101*1*2"))).

(** The same store with the two bytes of the cap at 200 set to 0. *)
Definition zero_cap_store : RamEEPROM := writeIntToEEPROM two_votes_store 200 0.

(** The reset defaults on a chip whose cell 300 no longer takes writes. *)
Definition worn_store : WornEEPROM :=
  {| backing := reset_defaults; worn := fun a => a =? 300 |}.

(** A store with the given six counts and cap 100. *)
Definition store_with_counts (counts : list Z) : RamEEPROM :=
  fold_left (fun e '(i, c) => writeIntToEEPROM e (300 + i * 2) c)
            (zip slots counts) reset_defaults.



(** The body of the first loop of [showResults], for counts given by [c]. *)
Definition scan_body (c : Z -> Z) : Z * Z * Z -> Z -> Z * Z * Z :=
  fun '(maxVotes, winner, totalVotesCast) i =>
    if c i >? maxVotes
    then (c i, i, totalVotesCast + c i)
    else (maxVotes, winner, totalVotesCast + c i).

(** The slots named on the winner line, and whether it announces a tie. *)
Definition winnerSet (w : WinnerLine) : list Z :=
  match w with
  | Winners printed => map (fun p => p - 1) printed
  | Winner printed => [printed - 1]
  end.

Definition reports_tie (w : WinnerLine) : bool :=
  match w with
  | Winners _ => true
  | Winner _ => false
  end.

(** The sketch writes the EEPROM in four places only. *)
Inductive Wrote {E : Type} `{EEPROMClass E} (m : Machine E) (key : ascii)
  : E -> Prop :=
| wrote_nothing :
    Wrote m key (EEPROM (globals m))
| wrote_reset :
    Wrote m key (EEPROM (globals (fst (run_resetEEPROM m))))
| wrote_flag (i v : Z) :
    0 <= i <= 5 ->
    Wrote m key (EEPROM_commit (EEPROM_write (EEPROM (globals m)) (100 + i) v))
| wrote_cap (t : Z) :
    frame m = InSetMaxVoters t -> key = "#"%char ->
    Wrote m key (writeIntToEEPROM (EEPROM (globals m)) 200
                                  (committed_maxVoters t))
| wrote_vote (i : Z) (inputLocked : bool) :
    frame m = InVotingMenu inputLocked ->
    0 <= i <= 5 ->
    all_votes_count (EEPROM (globals m))
    < readIntFromEEPROM (EEPROM (globals m)) 200 ->
    Wrote m key (writeIntToEEPROM (EEPROM (globals m)) (300 + i * 2)
                                  (voteCount (EEPROM (globals m)) i + 1)).

(** Between two power cycles: the bound holds and, outside the booth, no
    vote has been cast yet. *)
Definition session_inv (m : Machine RamEEPROM) : Prop :=
  cap_bound (EEPROM (globals m))
  /\ (all_votes_count (EEPROM (globals m)) = 0
      \/ exists inputLocked, frame m = InVotingMenu inputLocked).

(** ** getDebouncedKey *)

(** The globals of the debouncer. *)
Record Debounce := {
  lastDebounceTime : Z;
  lastKey : ascii
}.

Definition debounceDelay : Z := 50.

(** [unsigned long] arithmetic is modulo 2^32. *)
Definition ulong (x : Z) : Z := x mod 2 ^ 32.

(** One call: [currentKey] is what [customKeypad.getKey()] returns and
    [now] what [millis()] returns during the call. *)
Definition getDebouncedKey (d : Debounce) (currentKey : ascii) (now : Z)
  : ascii * Debounce :=
  if negb (char_eq currentKey NUL) then
    if negb (char_eq currentKey (lastKey d)) then
      if ulong (now - lastDebounceTime d) >? debounceDelay then
        (currentKey, {| lastDebounceTime := now; lastKey := currentKey |})
      else (NUL, d)
    else (NUL, d)
  else (NUL, {| lastDebounceTime := lastDebounceTime d; lastKey := NUL |}).

(** Successive calls; the keys returned, in order. *)
Fixpoint poll_all (d : Debounce) (polls : list (ascii * Z)) : list ascii :=
  match polls with
  | [] => []
  | (currentKey, now) :: polls =>
      let '(key, d) := getDebouncedKey d currentKey now in
      key :: poll_all d polls
  end.

(** How many calls returned a key. *)
Definition reported (returned : list ascii) : nat :=
  length (List.filter (fun key => negb (char_eq key NUL)) returned).

(** ** Digits typed in [setMaxVoters] *)

(** The number [setMaxVoters] builds from the digit keys, without the
    wrap-around of [int]. *)
Definition decimal_from (t : Z) (digits : list ascii) : Z :=
  fold_left (fun t key => t * 10 + (ord key - ord "0")) digits t.

(** ** In front of the password box *)

(** The loops that run before any password was accepted. *)
Definition at_the_door (f : Frame) : bool :=
  match f with
  | InLoop | InResetMenu | InPasswordBox _ _ => true
  | _ => false
  end.

(** The key confirms the correct password. *)
Definition grants (f : Frame) (key : ascii) : bool :=
  match f with
  | InPasswordBox _ enteredPassword =>
      char_eq key "*" && String.eqb enteredPassword correctPassword
  | _ => false
  end.

(** No key of the sequence confirms the correct password. *)
Fixpoint denied {E : Type} `{EEPROMClass E} (m : Machine E) (pressed : list ascii)
  : bool :=
  match pressed with
  | [] => true
  | key :: pressed =>
      negb (grants (frame m) key) && denied (fst (step m key)) pressed
  end.

(** ** Bytes and 16-bit values *)

Lemma byte_high_bits (l n : Z) : 0 <= l < 256 -> 8 <= n -> Z.testbit l n = false.
Proof.
  intros Hl Hn.
  rewrite <- (Z.mod_small l (2 ^ 8)) by (change (2 ^ 8) with 256; lia).
  apply Z.mod_pow2_bits_high; lia.
Qed.

Lemma lor_shiftl_byte (h l : Z) :
  0 <= l < 256 -> Z.lor (Z.shiftl h 8) l = h * 256 + l.
Proof.
  intros Hl.
  assert (Hdisj : Z.land (Z.shiftl h 8) l = 0).
  { apply Z.bits_inj'; intros n Hn.
    rewrite Z.land_spec, Z.bits_0.
    destruct (Z.ltb_spec n 8).
    - rewrite Z.shiftl_spec_low by lia. reflexivity.
    - rewrite (byte_high_bits l n) by lia. apply andb_false_r. }
  pose proof (Z.add_lor_land (Z.shiftl h 8) l) as Hadd.
  rewrite Hdisj, Z.add_0_r in Hadd.
  rewrite Hadd, Z.shiftl_mul_pow2 by lia.
  reflexivity.
Qed.

Lemma split_16 (v : Z) :
  (Z.shiftr v 8 mod 256) * 256 + Z.land v 255 mod 256 = v mod 65536.
Proof.
  rewrite Z.shiftr_div_pow2 by lia.
  change 255 with (Z.ones 8).
  rewrite Z.land_ones by lia.
  change (2 ^ 8) with 256.
  rewrite Z.mod_mod by lia.
  change 65536 with (256 * 256).
  rewrite Z.rem_mul_r by lia.
  lia.
Qed.

(** ** The RAM-backed EEPROM *)

Lemma ram_read_range (e : RamEEPROM) (a : Z) : 0 <= EEPROM_read e a < 256.
Proof.
  cbn. unfold ram_read.
  destruct (in_eeprom a); [apply Z.mod_pos_bound|]; lia.
Qed.

Lemma ram_read_write (e : RamEEPROM) (a v a' : Z) :
  EEPROM_read (EEPROM_write e a v) a' =
  if in_eeprom a && (a' =? a) then v mod 256 else EEPROM_read e a'.
Proof.
  cbn. unfold ram_write, ram_read.
  destruct (in_eeprom a) eqn:Ha; cbn; [|reflexivity].
  destruct (Z.eqb_spec a' a) as [->|Hne].
  - rewrite Ha. apply Z.mod_mod. lia.
  - reflexivity.
Qed.

Lemma ram_read_write_other (e : RamEEPROM) (a v a' : Z) :
  a' <> a -> EEPROM_read (EEPROM_write e a v) a' = EEPROM_read e a'.
Proof.
  intros Hne. rewrite ram_read_write.
  destruct (Z.eqb_spec a' a); [contradiction|].
  rewrite andb_false_r. reflexivity.
Qed.

Lemma ram_read_writeInt_other (e : RamEEPROM) (a v a' : Z) :
  a' <> a -> a' <> a + 1 ->
  EEPROM_read (writeIntToEEPROM e a v) a' = EEPROM_read e a'.
Proof.
  intros H1 H2. unfold writeIntToEEPROM.
  change (EEPROM_commit ?x) with x.
  rewrite !ram_read_write_other by assumption. reflexivity.
Qed.

Lemma readInt_value (e : RamEEPROM) (a : Z) :
  readIntFromEEPROM e a = EEPROM_read e (a + 1) * 256 + EEPROM_read e a.
Proof.
  unfold readIntFromEEPROM. apply lor_shiftl_byte, ram_read_range.
Qed.

Lemma readInt_range (e : RamEEPROM) (a : Z) :
  0 <= readIntFromEEPROM e a < 65536.
Proof.
  rewrite readInt_value.
  pose proof (ram_read_range e a). pose proof (ram_read_range e (a + 1)). lia.
Qed.

(** Reading back a 16-bit value just written, inside the array. *)
Lemma readInt_writeInt (e : RamEEPROM) (a v : Z) :
  0 <= a -> a + 1 < EEPROM_SIZE ->
  readIntFromEEPROM (writeIntToEEPROM e a v) a = v mod 65536.
Proof.
  intros Hlo Hhi. rewrite readInt_value. unfold writeIntToEEPROM.
  change (EEPROM_commit ?x) with x.
  assert (Ha : in_eeprom a = true) by (unfold in_eeprom; lia).
  assert (Ha1 : in_eeprom (a + 1) = true) by (unfold in_eeprom; lia).
  rewrite (ram_read_write _ (a + 1) _ (a + 1)), Ha1, Z.eqb_refl. cbn [andb].
  rewrite (ram_read_write_other _ (a + 1) _ a) by lia.
  rewrite (ram_read_write _ a _ a), Ha, Z.eqb_refl. cbn [andb].
  apply split_16.
Qed.

Lemma readInt_writeInt_other (e : RamEEPROM) (a v a' : Z) :
  a' + 1 < a \/ a + 1 < a' ->
  readIntFromEEPROM (writeIntToEEPROM e a v) a' = readIntFromEEPROM e a'.
Proof.
  intros Hfar. unfold readIntFromEEPROM.
  rewrite !ram_read_writeInt_other by lia. reflexivity.
Qed.

Lemma readInt_write_other (e : RamEEPROM) (a v a' : Z) :
  a <> a' -> a <> a' + 1 ->
  readIntFromEEPROM (EEPROM_write e a v) a' = readIntFromEEPROM e a'.
Proof.
  intros H1 H2. unfold readIntFromEEPROM.
  rewrite !ram_read_write_other by lia. reflexivity.
Qed.

(** ** The loops of [showResults] *)

Section ResultLoops.
Variable c : Z -> Z.

(** The three loops over an arbitrary list of slots. *)

Lemma scan_loop (l : list Z) (maxVotes winner total : Z) :
  match fold_left (scan_body c) l (maxVotes, winner, total) with
  | (maxVotes', winner', _) =>
      maxVotes <= maxVotes'
      /\ (forall i, i ∈ l -> c i <= maxVotes')
      /\ ((maxVotes' = maxVotes /\ winner' = winner)
          \/ (winner' ∈ l /\ c winner' = maxVotes'))
  end.
Proof.
  revert maxVotes winner total.
  induction l as [|i l IH]; intros maxVotes winner total; cbn [fold_left].
  - split; [lia|]. split; [|left; auto].
    intros i Hi. inversion Hi.
  - unfold scan_body at 2.
    destruct (Z.gtb_spec (c i) maxVotes) as [Hgt|Hle].
    + specialize (IH (c i) i (total + c i)).
      destruct (fold_left (scan_body c) l (c i, i, total + c i)) as [[mx w] t].
      destruct IH as (Hmono & Hub & Hwho).
      split; [lia|]. split.
      * intros j Hj. apply elem_of_cons in Hj as [->|Hj]; [lia|auto].
      * right. destruct Hwho as [[-> ->]|[Hin Hc]].
        -- split; [left|reflexivity].
        -- split; [right; assumption|assumption].
    + specialize (IH maxVotes winner (total + c i)).
      destruct (fold_left (scan_body c) l (maxVotes, winner, total + c i))
        as [[mx w] t].
      destruct IH as (Hmono & Hub & Hwho).
      split; [lia|]. split.
      * intros j Hj. apply elem_of_cons in Hj as [->|Hj]; [lia|auto].
      * destruct Hwho as [?|[Hin Hc]]; [left; assumption|].
        right. split; [right; assumption|assumption].
Qed.

Lemma tie_loop (l : list Z) (maxVotes winner : Z) (tie : bool) :
  fold_left (fun tie i =>
               if (c i =? maxVotes) && negb (i =? winner) then true else tie)
            l tie = true
  <-> tie = true \/ exists i, i ∈ l /\ c i = maxVotes /\ i <> winner.
Proof.
  revert tie. induction l as [|i l IH]; intros tie; cbn [fold_left].
  - split; [auto|]. intros [?|(i & Hi & _)]; [assumption|inversion Hi].
  - rewrite IH. split.
    + intros [Hhead|(j & Hj & Hc & Hne)].
      * destruct (Z.eqb_spec (c i) maxVotes) as [Hc|]; cbn [andb] in Hhead;
          [|auto].
        destruct (Z.eqb_spec i winner) as [|Hne]; cbn [negb] in Hhead;
          [auto|].
        right. exists i. split; [left|auto].
      * right. exists j. split; [right; assumption|auto].
    + intros [->|(j & Hj & Hc & Hne)].
      * left. destruct (_ && _); reflexivity.
      * apply elem_of_cons in Hj as [->|Hj].
        -- left. rewrite Hc, Z.eqb_refl.
           destruct (Z.eqb_spec i winner); [contradiction|reflexivity].
        -- right. exists j. auto.
Qed.

Lemma winners_loop (l : list Z) (maxVotes : Z) (printed : list Z) :
  fold_left (fun printed i =>
               if c i =? maxVotes then printed ++ [i + 1] else printed)
            l printed
  = printed ++ map (fun i => i + 1) (filter (fun i => c i = maxVotes) l).
Proof.
  revert printed. induction l as [|i l IH]; intros printed; cbn [fold_left].
  - cbn. rewrite app_nil_r. reflexivity.
  - rewrite IH, filter_cons.
    destruct (Z.eqb_spec (c i) maxVotes) as [Hc|Hc].
    + rewrite decide_True by assumption. cbn [map].
      rewrite <- app_assoc. reflexivity.
    + rewrite decide_False by assumption. reflexivity.
Qed.
End ResultLoops.

Lemma two_members_length {A : Type} (l : list A) (a b : A) :
  NoDup l -> a ∈ l -> b ∈ l -> a <> b -> (1 < length l)%nat.
Proof.
  intros Hnd Ha Hb Hne.
  destruct l as [|x [|y l]]; cbn; [inversion Ha| |lia].
  apply list_elem_of_singleton in Ha, Hb. congruence.
Qed.

Lemma unprint_slots (l : list Z) :
  map (fun p => p - 1) (map (fun i => i + 1) l) = l.
Proof.
  induction l as [|i l IH]; cbn; [reflexivity|].
  rewrite IH. f_equal. lia.
Qed.

Lemma NoDup_slots : NoDup slots.
Proof.
  unfold slots.
  repeat (apply NoDup_cons; split;
          [rewrite ?elem_of_cons, elem_of_nil; lia|]).
  apply NoDup_nil_2.
Qed.

(** Some slot reaches the maximum found by the first loop, and the slots at
    the maximum are those no other slot beats. *)
Lemma scan_finds_maximum (e : RamEEPROM) (maxVotes winner total : Z) :
  results_scan e = (maxVotes, winner, total) ->
  (forall i, i ∈ slots ->
     voteCount e i = maxVotes <->
     (forall j, j ∈ slots -> voteCount e j <= voteCount e i))
  /\ ((maxVotes = 0 /\ winner = -1 /\ forall i, i ∈ slots -> voteCount e i = 0)
      \/ (winner ∈ slots /\ voteCount e winner = maxVotes)).
Proof.
  intros Hscan.
  pose proof (scan_loop (voteCount e) slots 0 (-1) 0) as Hloop.
  change (fold_left _ slots (0, -1, 0)) with (results_scan e) in Hloop.
  rewrite Hscan in Hloop. destruct Hloop as (Hnonneg & Hub & Hwho).
  assert (Hc0 : forall i, 0 <= voteCount e i)
    by (intros i; apply readInt_range).
  assert (Hcases :
            (maxVotes = 0 /\ winner = -1 /\
             forall i, i ∈ slots -> voteCount e i = 0)
            \/ (winner ∈ slots /\ voteCount e winner = maxVotes)).
  { destruct Hwho as [[-> ->]|?]; [left|right; assumption].
    repeat split. intros i Hi. specialize (Hub i Hi). specialize (Hc0 i). lia. }
  split; [|assumption].
  assert (Hreached : exists i0, i0 ∈ slots /\ voteCount e i0 = maxVotes).
  { destruct Hcases as [(-> & _ & Hall)|[Hin Hc]].
    - exists 0. split; [left|]. apply Hall. left.
    - exists winner. auto. }
  destruct Hreached as (i0 & Hi0 & Hc).
  intros i Hi. split.
  - intros <- j Hj. auto.
  - intros Hbeats. specialize (Hbeats i0 Hi0). specialize (Hub i Hi). lia.
Qed.

(** The line [showResults] prints under the results names exactly the
    slots whose stored count is the largest, each once, and is the tie line
    exactly when it names more than one. *)
Lemma winner_line_is_argmax (e : RamEEPROM) :
  (forall i, i ∈ winnerSet (results_winner_line e) <->
             i ∈ slots /\ forall j, j ∈ slots -> voteCount e j <= voteCount e i)
  /\ NoDup (winnerSet (results_winner_line e))
  /\ (reports_tie (results_winner_line e) = true <->
      (1 < length (winnerSet (results_winner_line e)))%nat).
Proof.
  unfold results_winner_line.
  destruct (results_scan e) as [[maxVotes winner] total] eqn:Hscan.
  apply scan_finds_maximum in Hscan as [Hmax Hcases].
  destruct (results_tie e maxVotes winner) eqn:Htie.
  - apply (tie_loop (voteCount e) slots maxVotes winner false) in Htie.
    destruct Htie as [Habs|(i1 & Hi1 & Hc1 & Hne)]; [discriminate|].
    cbn [winnerSet reports_tie].
    pose proof (winners_loop (voteCount e) slots maxVotes []) as Hprinted.
    change (fold_left _ slots []) with (results_winners e maxVotes) in Hprinted.
    rewrite Hprinted. cbn [app]. rewrite unprint_slots.
    assert (Hmem : forall i, i ∈ filter (fun i => voteCount e i = maxVotes) slots
                             <-> i ∈ slots /\ voteCount e i = maxVotes).
    { intros i. rewrite list_elem_of_filter. tauto. }
    split; [|split].
    + intros i. rewrite Hmem. split.
      * intros [Hi Hc]. split; [assumption|]. apply Hmax; assumption.
      * intros [Hi Hbeats]. split; [assumption|]. apply Hmax; assumption.
    + apply NoDup_filter, NoDup_slots.
    + split; [intros _|reflexivity].
      destruct Hcases as [(-> & -> & Hall)|[Hin Hc]].
      * apply (two_members_length _ 0 1).
        -- apply NoDup_filter, NoDup_slots.
        -- apply Hmem. split; [left|apply Hall; left].
        -- apply Hmem. split; [right; left|apply Hall; right; left].
        -- lia.
      * apply (two_members_length _ winner i1).
        -- apply NoDup_filter, NoDup_slots.
        -- apply Hmem. auto.
        -- apply Hmem. auto.
        -- congruence.
  - assert (Hnone : forall i, i ∈ slots -> voteCount e i = maxVotes -> i = winner).
    { intros i Hi Hc. destruct (Z.eq_dec i winner) as [|Hne]; [assumption|].
      assert (Htrue : results_tie e maxVotes winner = true)
        by (apply (tie_loop (voteCount e) slots maxVotes winner false);
            right; exists i; auto).
      congruence. }
    cbn [winnerSet reports_tie length].
    replace (winner + 1 - 1) with winner by lia.
    destruct Hcases as [(-> & -> & Hall)|[Hin Hc]].
    { exfalso. assert (0 = -1); [|lia].
      apply Hnone; [left|apply Hall; left]. }
    split; [|split].
    + intros i. rewrite list_elem_of_singleton. split.
      * intros ->. split; [assumption|]. apply Hmax; assumption.
      * intros [Hi Hbeats]. apply Hnone; [assumption|]. apply Hmax; assumption.
    + apply NoDup_singleton.
    + split; [discriminate|lia].
Qed.

Lemma showResults_winner_line {E : Type} `{EEPROMClass E} (e : E)
      (view : ResultsView) :
  showResults e = Some view -> winnerLine view = results_winner_line e.
Proof.
  unfold showResults.
  destruct (results_scan e) as [[maxVotes winner] totalVotesCast].
  destruct (int_div _ _); [|discriminate].
  intros Hview. injection Hview as <-. reflexivity.
Qed.

(** C10: on every results screen [showResults] shows, the slots named on
    the winner line are exactly the slots whose stored count is the largest
    of the six counts, each named once, and the line is the tie line
    ([Winners:]) exactly when more than one slot is named; with a stored
    cap other than 0, key 2 of the admin menu does show that screen; for
    the counts [3,3,1,0,0,0] the slots named are 0 and 1 on the tie line,
    for [5,1,1,1,1,1] only slot 0 on the single-winner line. *)
Theorem winner_set_is_argmax (m : Machine RamEEPROM) :
  (forall view,
      showResults (EEPROM (globals m)) = Some view ->
      (forall i, i ∈ winnerSet (winnerLine view) <->
                 i ∈ slots /\
                 forall j, j ∈ slots ->
                           voteCount (EEPROM (globals m)) j
                           <= voteCount (EEPROM (globals m)) i)
      /\ NoDup (winnerSet (winnerLine view))
      /\ (reports_tie (winnerLine view) = true <->
          (1 < length (winnerSet (winnerLine view)))%nat))
  /\ (frame m = InAdminMenu ->
      readIntFromEEPROM (EEPROM (globals m)) 200 <> 0 ->
      exists view,
        showResults (EEPROM (globals m)) = Some view
        /\ step m "2" = (call_from_admin m InResults,
                         [Show (ResultsScreen view)]))
  /\ option_map (fun view => (winnerSet (winnerLine view),
                              reports_tie (winnerLine view)))
                (showResults (store_with_counts [3; 3; 1; 0; 0; 0]))
     = Some ([0; 1], true)
  /\ option_map (fun view => (winnerSet (winnerLine view),
                              reports_tie (winnerLine view)))
                (showResults (store_with_counts [5; 1; 1; 1; 1; 1]))
     = Some ([0], false).
Proof.
  split; [|split; [|split; vm_compute; reflexivity]].
  - intros view Hview.
    rewrite (showResults_winner_line _ _ Hview).
    apply winner_line_is_argmax.
  - intros Hframe Hcap.
    destruct (showResults (EEPROM (globals m))) as [view|] eqn:Hshow.
    + exists view. split; [reflexivity|].
      unfold step. rewrite Hframe. unfold showAdminMenu_key.
      change (char_eq "2" "1") with false. change (char_eq "2" "2") with true.
      cbv iota. unfold enter_showResults.
      cbn [call_from_admin globals]. rewrite Hshow. reflexivity.
    + exfalso. apply Hcap. unfold showResults, int_div in Hshow.
      destruct (results_scan (EEPROM (globals m))) as [[maxVotes winner] total].
      destruct (Z.eqb_spec (readIntFromEEPROM (EEPROM (globals m)) 200) 0);
        [assumption|discriminate].
Qed.

Lemma winner_set_is_argmax_witness :
  exists view,
    showResults (EEPROM (globals (run (fst (setup two_votes_store))
                                      (keys "11101*")))) = Some view
    /\ step (run (fst (setup two_votes_store)) (keys "11101*")) "2"
       = (call_from_admin (run (fst (setup two_votes_store)) (keys "11101*"))
                          InResults,
          [Show (ResultsScreen view)])
    /\ NoDup (winnerSet (winnerLine view))
    /\ (reports_tie (winnerLine view) = true <->
        (1 < length (winnerSet (winnerLine view)))%nat).
Proof.
  destruct (winner_set_is_argmax (run (fst (setup two_votes_store))
                                      (keys "11101*")))
    as (Hline & Hshown & _).
  destruct Hshown as (view & Hview & Hstep).
  - reflexivity.
  - vm_compute. discriminate.
  - exists view. destruct (Hline view Hview) as (_ & Hnodup & Htie).
    exact (conj Hview (conj Hstep (conj Hnodup Htie))).
Defined.

(** ** The voting booth *)

Lemma candidate_index_range (key : ascii) :
  char_between "1" "6" key = true -> 0 <= ord key - ord "1" <= 5.
Proof.
  unfold char_between. change (ord "1") with 49. change (ord "6") with 54. lia.
Qed.

Lemma candidate_index_cases (i : Z) :
  0 <= i <= 5 -> i = 0 \/ i = 1 \/ i = 2 \/ i = 3 \/ i = 4 \/ i = 5.
Proof. lia. Qed.

Ltac each_slot i H :=
  destruct (candidate_index_cases i H) as [->|[->|[->|[->|[->| ->]]]]].

Lemma all_votes_count_sum {E : Type} `{EEPROMClass E} (e : E) :
  all_votes_count e =
  voteCount e 0 + voteCount e 1 + voteCount e 2
  + voteCount e 3 + voteCount e 4 + voteCount e 5.
Proof. reflexivity. Qed.

Lemma voteCount_writeInt (e : RamEEPROM) (i j v : Z) :
  0 <= i <= 5 -> 0 <= j <= 5 ->
  voteCount (writeIntToEEPROM e (300 + i * 2) v) j =
  if j =? i then v mod 65536 else voteCount e j.
Proof.
  intros Hi Hj. unfold voteCount.
  destruct (Z.eqb_spec j i) as [->|Hne].
  - apply readInt_writeInt; unfold EEPROM_SIZE; lia.
  - apply readInt_writeInt_other. lia.
Qed.

Lemma all_votes_count_writeInt (e : RamEEPROM) (i v : Z) :
  0 <= i <= 5 ->
  all_votes_count (writeIntToEEPROM e (300 + i * 2) v) =
  all_votes_count e - voteCount e i + v mod 65536.
Proof.
  intros Hi. rewrite !all_votes_count_sum.
  rewrite !voteCount_writeInt by lia.
  each_slot i Hi; cbn [Z.eqb Pos.eqb]; lia.
Qed.

Lemma voteCount_le_total (e : RamEEPROM) (i : Z) :
  0 <= i <= 5 -> voteCount e i <= all_votes_count e.
Proof.
  intros Hi. rewrite all_votes_count_sum.
  pose proof (readInt_range e (300 + 0 * 2)).
  pose proof (readInt_range e (300 + 1 * 2)).
  pose proof (readInt_range e (300 + 2 * 2)).
  pose proof (readInt_range e (300 + 3 * 2)).
  pose proof (readInt_range e (300 + 4 * 2)).
  pose proof (readInt_range e (300 + 5 * 2)).
  unfold voteCount. each_slot i Hi; lia.
Qed.

(** With room under the cap, the incremented count still fits 16 bits, so
    the read-back of the RAM-backed store gives the value written. *)
Lemma vote_read_back (e : RamEEPROM) (i : Z) :
  0 <= i <= 5 ->
  all_votes_count e < readIntFromEEPROM e 200 ->
  readIntFromEEPROM (writeIntToEEPROM e (300 + i * 2) (voteCount e i + 1))
                    (300 + i * 2)
  = voteCount e i + 1.
Proof.
  intros Hi Hroom.
  rewrite readInt_writeInt by (unfold EEPROM_SIZE; lia).
  apply Z.mod_small.
  pose proof (voteCount_le_total e i Hi).
  pose proof (readInt_range e 200).
  pose proof (readInt_range e (300 + i * 2)). unfold voteCount in *. lia.
Qed.

(** The taken branch of [showVotingMenu_key] for an accepted vote. *)
Lemma showVotingMenu_key_cast (g : Globals RamEEPROM) (key : ascii) :
  char_between "1" "6" key = true ->
  enabledCandidates g !!! Z.to_nat (ord key - ord "1") = true ->
  all_votes_count (EEPROM g) < readIntFromEEPROM (EEPROM g) 200 ->
  showVotingMenu_key g false key =
  (with_EEPROM g (writeIntToEEPROM (EEPROM g) (300 + (ord key - ord "1") * 2)
                                   (voteCount (EEPROM g) (ord key - ord "1") + 1)),
   true,
   [Show VoteRecorded; Tone buzz; Show (SavedFor (ord key - ord "1" + 1));
    Show VotingBoothScreen; Show UnlockHint]).
Proof.
  intros Hkey Hen Hroom. unfold showVotingMenu_key.
  rewrite Hkey, Hen. cbn [negb andb].
  destruct (Z.ltb_spec (all_votes_count (EEPROM g))
                       (readIntFromEEPROM (EEPROM g) 200)); [|lia].
  fold (voteCount (EEPROM g) (ord key - ord "1")).
  rewrite vote_read_back by (auto using candidate_index_range).
  rewrite Z.eqb_refl. reflexivity.
Qed.

(** C3: in the unlocked booth, a digit 1-6 for an enabled slot, with the
    votes cast below the stored cap, stores the slot's count plus one with a
    single 16-bit write, the value read back is the value written, the
    confirmation screens are shown, [inputLocked] becomes true and the
    machine stays in the loop of the booth. *)
Theorem cast_vote_unlocked (m : Machine RamEEPROM) (key : ascii) :
  frame m = InVotingMenu false ->
  char_between "1" "6" key = true ->
  enabledCandidates (globals m) !!! Z.to_nat (ord key - ord "1") = true ->
  all_votes_count (EEPROM (globals m))
  < readIntFromEEPROM (EEPROM (globals m)) 200 ->
  voteCount (EEPROM (globals (fst (step m key)))) (ord key - ord "1")
  = voteCount (EEPROM (globals m)) (ord key - ord "1") + 1
  /\ EEPROM (globals (fst (step m key)))
     = writeIntToEEPROM (EEPROM (globals m)) (300 + (ord key - ord "1") * 2)
                        (voteCount (EEPROM (globals m)) (ord key - ord "1") + 1)
  /\ snd (step m key)
     = [Show VoteRecorded; Tone buzz; Show (SavedFor (ord key - ord "1" + 1));
        Show VotingBoothScreen; Show UnlockHint]
  /\ frame (fst (step m key)) = InVotingMenu true.
Proof.
  intros Hframe Hkey Hen Hroom. unfold step. rewrite Hframe.
  rewrite showVotingMenu_key_cast by assumption. cbn.
  split; [|auto].
  apply vote_read_back; [apply candidate_index_range|]; assumption.
Qed.

Lemma cast_vote_unlocked_witness :
  voteCount (EEPROM (globals (fst (step (run fresh_device (keys "21101*")) "3"))))
            (ord "3" - ord "1")
  = voteCount (EEPROM (globals (run fresh_device (keys "21101*"))))
              (ord "3" - ord "1") + 1
  /\ frame (fst (step (run fresh_device (keys "21101*")) "3"))
     = InVotingMenu true.
Proof.
  destruct (cast_vote_unlocked (run fresh_device (keys "21101*")) "3")
    as (Hcount & _ & _ & Hframe).
  - reflexivity.
  - reflexivity.
  - reflexivity.
  - vm_compute. reflexivity.
  - exact (conj Hcount Hframe).
Defined.

(** C9: an accepted vote for slot i changes no stored byte other than the
    two bytes of that slot's count at 300+2i: the other five counts, the six
    enable flags at 100..105 and the cap at 200 read as before. *)
Theorem cast_vote_frame (m : Machine RamEEPROM) (key : ascii) :
  frame m = InVotingMenu false ->
  char_between "1" "6" key = true ->
  enabledCandidates (globals m) !!! Z.to_nat (ord key - ord "1") = true ->
  all_votes_count (EEPROM (globals m))
  < readIntFromEEPROM (EEPROM (globals m)) 200 ->
  (forall a, a <> 300 + (ord key - ord "1") * 2 ->
             a <> 300 + (ord key - ord "1") * 2 + 1 ->
             EEPROM_read (EEPROM (globals (fst (step m key)))) a
             = EEPROM_read (EEPROM (globals m)) a)
  /\ (forall j, 0 <= j <= 5 -> j <> ord key - ord "1" ->
                voteCount (EEPROM (globals (fst (step m key)))) j
                = voteCount (EEPROM (globals m)) j)
  /\ (forall j, 0 <= j <= 5 ->
                EEPROM_read (EEPROM (globals (fst (step m key)))) (100 + j)
                = EEPROM_read (EEPROM (globals m)) (100 + j))
  /\ readIntFromEEPROM (EEPROM (globals (fst (step m key)))) 200
     = readIntFromEEPROM (EEPROM (globals m)) 200.
Proof.
  intros Hframe Hkey Hen Hroom.
  pose proof (candidate_index_range key Hkey) as Hi.
  unfold step. rewrite Hframe.
  rewrite showVotingMenu_key_cast by assumption. cbn [fst globals with_EEPROM EEPROM].
  split; [|split; [|split]].
  - intros a H1 H2. apply ram_read_writeInt_other; assumption.
  - intros j Hj Hne. rewrite voteCount_writeInt by assumption.
    destruct (Z.eqb_spec j (ord key - ord "1")); [contradiction|reflexivity].
  - intros j Hj. apply ram_read_writeInt_other; lia.
  - apply readInt_writeInt_other. lia.
Qed.

Lemma cast_vote_frame_witness :
  (forall j, 0 <= j <= 5 -> j <> ord "3" - ord "1" ->
     voteCount (EEPROM (globals (fst (step (run fresh_device (keys "21101*")) "3")))) j
     = voteCount (EEPROM (globals (run fresh_device (keys "21101*")))) j)
  /\ readIntFromEEPROM
       (EEPROM (globals (fst (step (run fresh_device (keys "21101*")) "3")))) 200
     = readIntFromEEPROM (EEPROM (globals (run fresh_device (keys "21101*")))) 200.
Proof.
  destruct (cast_vote_frame (run fresh_device (keys "21101*")) "3")
    as (_ & Hcounts & _ & Hcap).
  - reflexivity.
  - reflexivity.
  - reflexivity.
  - vm_compute. reflexivity.
  - exact (conj Hcounts Hcap).
Defined.

(** C7: whatever the EEPROM does, when the value read back after the write
    differs from the incremented count, the only screen shown is the
    storage error, [inputLocked] stays false, the machine stays in the loop
    of the booth, and the store is the one left by that single write. *)
Theorem vote_not_saved {E : Type} `{EEPROMClass E} (m : Machine E) (key : ascii) :
  frame m = InVotingMenu false ->
  char_between "1" "6" key = true ->
  enabledCandidates (globals m) !!! Z.to_nat (ord key - ord "1") = true ->
  all_votes_count (EEPROM (globals m))
  < readIntFromEEPROM (EEPROM (globals m)) 200 ->
  readIntFromEEPROM
    (writeIntToEEPROM (EEPROM (globals m)) (300 + (ord key - ord "1") * 2)
                      (voteCount (EEPROM (globals m)) (ord key - ord "1") + 1))
    (300 + (ord key - ord "1") * 2)
  <> voteCount (EEPROM (globals m)) (ord key - ord "1") + 1 ->
  snd (step m key) = [Show VoteNotSaved]
  /\ frame (fst (step m key)) = InVotingMenu false
  /\ EEPROM (globals (fst (step m key)))
     = writeIntToEEPROM (EEPROM (globals m)) (300 + (ord key - ord "1") * 2)
                        (voteCount (EEPROM (globals m)) (ord key - ord "1") + 1)
  /\ suspended (fst (step m key)) = suspended m.
Proof.
  intros Hframe Hkey Hen Hroom Hbad. unfold step. rewrite Hframe.
  unfold showVotingMenu_key. rewrite Hkey, Hen. cbn [negb andb].
  destruct (Z.ltb_spec (all_votes_count (EEPROM (globals m)))
                       (readIntFromEEPROM (EEPROM (globals m)) 200)); [|lia].
  fold (voteCount (EEPROM (globals m)) (ord key - ord "1")).
  destruct (Z.eqb_spec
              (readIntFromEEPROM
                 (writeIntToEEPROM (EEPROM (globals m))
                    (300 + (ord key - ord "1") * 2)
                    (voteCount (EEPROM (globals m)) (ord key - ord "1") + 1))
                 (300 + (ord key - ord "1") * 2))
              (voteCount (EEPROM (globals m)) (ord key - ord "1") + 1))
    as [Heq|_]; [contradiction|].
  cbn. auto.
Qed.

Lemma vote_not_saved_witness :
  snd (step (run (fst (setup worn_store)) (keys "21101*")) "1")
  = [Show VoteNotSaved]
  /\ frame (fst (step (run (fst (setup worn_store)) (keys "21101*")) "1"))
     = InVotingMenu false.
Proof.
  destruct (vote_not_saved (run (fst (setup worn_store)) (keys "21101*")) "1")
    as (Hshown & Hframe & _).
  - reflexivity.
  - reflexivity.
  - reflexivity.
  - vm_compute. reflexivity.
  - vm_compute. discriminate.
  - exact (conj Hshown Hframe).
Defined.

Lemma locked_key_ignored {E : Type} `{EEPROMClass E} (m : Machine E) (key : ascii) :
  frame m = InVotingMenu true -> char_eq key "*" = false -> step m key = (m, []).
Proof.
  intros Hframe Hkey. unfold step. rewrite Hframe.
  unfold showVotingMenu_key. cbn [negb]. rewrite andb_false_r, Hkey.
  destruct m; cbn in *; subst; reflexivity.
Qed.

Lemma digit_is_not_star (key : ascii) :
  char_between "1" "6" key = true -> char_eq key "*" = false.
Proof.
  unfold char_between, char_eq.
  change (ord "1") with 49. change (ord "6") with 54. change (ord "*") with 42.
  lia.
Qed.

(** C2: once the booth is locked, any sequence of presses of the digits
    1-6 leaves the whole machine, and so each of the six stored counts,
    as it was; every key other than [*] leaves [inputLocked] set, and [*]
    clears it without touching the globals. *)
Theorem locked_digits_ignored {E : Type} `{EEPROMClass E} (m : Machine E) :
  frame m = InVotingMenu true ->
  (forall pressed : list ascii,
      Forall (fun key => char_between "1" "6" key = true) pressed ->
      run m (map Key pressed) = m
      /\ forall i, voteCount (EEPROM (globals (run m (map Key pressed)))) i
                   = voteCount (EEPROM (globals m)) i)
  /\ (forall key, char_eq key "*" = false ->
                  frame (fst (step m key)) = InVotingMenu true)
  /\ frame (fst (step m "*")) = InVotingMenu false
  /\ globals (fst (step m "*")) = globals m.
Proof.
  intros Hframe. split; [|split; [|split]].
  - intros pressed Hdigits.
    assert (Hsame : run m (map Key pressed) = m).
    { induction Hdigits as [|key pressed Hkey _ IH]; [reflexivity|].
      cbn [map]. unfold run. cbn [fold_left feed].
      rewrite locked_key_ignored by auto using digit_is_not_star.
      exact IH. }
    rewrite Hsame. auto.
  - intros key Hkey. rewrite locked_key_ignored by assumption. exact Hframe.
  - unfold step. rewrite Hframe. reflexivity.
  - unfold step. rewrite Hframe. reflexivity.
Qed.

Lemma locked_digits_ignored_witness :
  run (run fresh_device (keys "21101*4")) (map Key ["4"; "1"; "6"; "4"]%char)
  = run fresh_device (keys "21101*4")
  /\ frame (fst (step (run fresh_device (keys "21101*4")) "*"))
     = InVotingMenu false.
Proof.
  destruct (locked_digits_ignored (run fresh_device (keys "21101*4")))
    as (Hdigits & _ & Hstar & _).
  - reflexivity.
  - split; [|exact Hstar].
    apply Hdigits. repeat constructor.
Defined.

(** ** The password box *)

Lemma digit_key_codes (key : ascii) :
  char_between "0" "9" key = true ->
  char_eq key NUL = false /\ char_eq key "*" = false /\ char_eq key "#" = false.
Proof.
  unfold char_between, char_eq.
  change (ord "0") with 48. change (ord "9") with 57. change (ord NUL) with 0.
  change (ord "*") with 42. change (ord "#") with 35.
  lia.
Qed.




(** C8: in the password box a digit key is appended only while fewer than
    8 characters are held, and only when it is one of 0-6: with 8
    characters held nothing changes, and 7, 8 and 9 change nothing and show
    nothing whatever the text held. *)
Theorem password_digit_filter {E : Type} `{EEPROMClass E}
        (m : Machine E) (callbackFunction : Callback) (enteredPassword : string)
        (key : ascii) :
  frame m = InPasswordBox callbackFunction enteredPassword ->
  char_between "0" "9" key = true ->
  ((String.length enteredPassword < 8)%nat ->
   char_between "0" "6" key = true ->
   step m key =
   (goto m (InPasswordBox callbackFunction
                          (enteredPassword ++ String key "")%string),
    [Show (MaskedInput (String.length (enteredPassword ++ String key "")))]))
  /\ ((8 <= String.length enteredPassword)%nat -> step m key = (m, []))
  /\ (char_between "7" "9" key = true -> step m key = (m, [])).
Proof.
  intros Hframe Hdigit.
  destruct (digit_key_codes key Hdigit) as (Hnul & Hstar & Hhash).
  unfold step. rewrite Hframe. unfold showPasswordBox_key.
  rewrite Hnul, Hstar, Hhash.
  split; [|split].
  - intros Hlen Hlow. rewrite Hlow.
    destruct (Nat.ltb_spec (String.length enteredPassword) 8); [|lia].
    reflexivity.
  - intros Hlen.
    destruct (Nat.ltb_spec (String.length enteredPassword) 8); [lia|].
    reflexivity.
  - intros Hhigh.
    assert (Hlow : char_between "0" "6" key = false).
    { revert Hhigh. unfold char_between.
      change (ord "0") with 48. change (ord "6") with 54.
      change (ord "7") with 55. change (ord "9") with 57. lia. }
    rewrite Hlow, andb_false_r. reflexivity.
Qed.

Lemma password_digit_filter_witness :
  step (run fresh_device (keys "111")) "0"
  = (goto (run fresh_device (keys "111")) (InPasswordBox showAdminMenu "110"),
     [Show (MaskedInput 3)])
  /\ step (run fresh_device (keys "112345601")) "2"
     = (run fresh_device (keys "112345601"), [])
  /\ step (run fresh_device (keys "111")) "8"
     = (run fresh_device (keys "111"), []).
Proof.
  split; [|split].
  - refine (proj1 (password_digit_filter (run fresh_device (keys "111"))
                     showAdminMenu "11" "0" _ _) _ _);
      try reflexivity; cbn; lia.
  - refine (proj1 (proj2 (password_digit_filter
                            (run fresh_device (keys "112345601"))
                            showAdminMenu "12345601" "2" _ _)) _);
      try reflexivity; cbn; lia.
  - refine (proj2 (proj2 (password_digit_filter (run fresh_device (keys "111"))
                            showAdminMenu "11" "8" _ _)) _);
      reflexivity.
Defined.

(** ** What one key can do to the stored bytes *)

Lemma char_eq_true (a b : ascii) : char_eq a b = true -> a = b.
Proof.
  unfold char_eq, ord. intros Heq.
  apply Z.eqb_eq, N2Z.inj in Heq.
  rewrite <- (ascii_N_embedding a), <- (ascii_N_embedding b), Heq.
  reflexivity.
Qed.

Lemma step_wrote {E : Type} `{EEPROMClass E} (m : Machine E) (key : ascii) :
  Wrote m key (EEPROM (globals (fst (step m key)))).
Proof.
  destruct m as [g f s]. unfold step. cbn [frame globals].
  destruct f.
  - unfold loop_key, enter_showPasswordBox, enter_showResetMenu.
    repeat case_match; exact (wrote_nothing _ _).
  - unfold showResetMenu_key, enter_showPasswordBox, do_return.
    cbn [suspended]. repeat case_match; exact (wrote_nothing _ _).
  - unfold showPasswordBox_key.
    destruct (char_eq key NUL); [exact (wrote_nothing _ _)|].
    destruct (char_eq key "*").
    + destruct (_ =? _)%nat; [|exact (wrote_nothing _ _)].
      destruct (String.eqb _ _); [|exact (wrote_nothing _ _)].
      destruct callbackFunction; cbn [invoke].
      * exact (wrote_nothing _ _).
      * exact (wrote_nothing _ _).
      * destruct (run_resetEEPROM _) as [m' shown] eqn:Hreset.
        cbn [fst]. change m' with (fst (m', shown)). rewrite <- Hreset.
        apply wrote_reset.
    + repeat case_match; exact (wrote_nothing _ _).
  - unfold showAdminMenu_key, enter_showResults, enter_setMaxVoters,
      enter_showPasswordBox, enter_showResetMenu.
    repeat case_match; exact (wrote_nothing _ _).
  - unfold enableCandidates_key.
    destruct (char_between "1" "6" key) eqn:Hkey.
    + cbn. apply wrote_flag, candidate_index_range, Hkey.
    + repeat case_match; exact (wrote_nothing _ _).
  - unfold showResults_key, enter_showGraph, do_return. cbn [suspended].
    repeat case_match; exact (wrote_nothing _ _).
  - unfold showGraph_key, enter_showResults.
    repeat case_match; exact (wrote_nothing _ _).
  - unfold setMaxVoters_key.
    destruct (char_between "0" "9" key); [exact (wrote_nothing _ _)|].
    destruct (char_eq key "#") eqn:Hkey; [|exact (wrote_nothing _ _)].
    cbn. apply wrote_cap; [reflexivity|]. apply char_eq_true, Hkey.
  - unfold showVotingMenu_key.
    destruct (char_between "1" "6" key && negb inputLocked) eqn:Hkey.
    + apply andb_true_iff in Hkey as [Hkey _].
      destruct (_ && (_ <? _)) eqn:Hok; [|exact (wrote_nothing _ _)].
      apply andb_true_iff in Hok as [_ Hroom]. apply Z.ltb_lt in Hroom.
      assert (Hwrote := wrote_vote
                {| globals := g; frame := InVotingMenu inputLocked;
                   suspended := s |} key (ord key - ord "1") inputLocked
                eq_refl (candidate_index_range key Hkey) Hroom).
      destruct (negb _); exact Hwrote.
    + destruct (char_eq key "*"); exact (wrote_nothing _ _).
  - exact (wrote_nothing _ _).
Qed.

Lemma all_votes_count_nonneg (e : RamEEPROM) : 0 <= all_votes_count e.
Proof.
  pose proof (voteCount_le_total e 0). pose proof (readInt_range e (300 + 0 * 2)).
  unfold voteCount in *. lia.
Qed.

Lemma committed_maxVoters_range (t : Z) : 1 <= committed_maxVoters t <= 65535.
Proof.
  unfold committed_maxVoters.
  destruct (Z.geb_spec t 1), (Z.leb_spec t 65535); cbn [andb]; lia.
Qed.

(** [resetEEPROM] on any store: counts 0, cap 100. *)
Lemma reset_store_values (m : Machine RamEEPROM) :
  all_votes_count (EEPROM (globals (fst (run_resetEEPROM m)))) = 0
  /\ readIntFromEEPROM (EEPROM (globals (fst (run_resetEEPROM m)))) 200 = 100.
Proof.
  destruct m as [[e vs en mv] f s]. split; vm_compute; reflexivity.
Qed.

Lemma flag_write_keeps_tally (e : RamEEPROM) (i v : Z) :
  0 <= i <= 5 ->
  all_votes_count (EEPROM_commit (EEPROM_write e (100 + i) v)) = all_votes_count e
  /\ readIntFromEEPROM (EEPROM_commit (EEPROM_write e (100 + i) v)) 200
     = readIntFromEEPROM e 200.
Proof.
  intros Hi. change (EEPROM_commit ?x) with x.
  rewrite !all_votes_count_sum. unfold voteCount.
  rewrite !readInt_write_other by lia. auto.
Qed.

Lemma cap_write_values (e : RamEEPROM) (t : Z) :
  all_votes_count (writeIntToEEPROM e 200 (committed_maxVoters t))
  = all_votes_count e
  /\ readIntFromEEPROM (writeIntToEEPROM e 200 (committed_maxVoters t)) 200
     = committed_maxVoters t.
Proof.
  pose proof (committed_maxVoters_range t).
  rewrite !all_votes_count_sum. unfold voteCount.
  rewrite !readInt_writeInt_other by lia.
  rewrite readInt_writeInt by (unfold EEPROM_SIZE; lia).
  rewrite Z.mod_small by lia. auto.
Qed.

Lemma vote_write_values (e : RamEEPROM) (i : Z) :
  0 <= i <= 5 ->
  all_votes_count e < readIntFromEEPROM e 200 ->
  all_votes_count (writeIntToEEPROM e (300 + i * 2) (voteCount e i + 1))
  = all_votes_count e + 1
  /\ readIntFromEEPROM (writeIntToEEPROM e (300 + i * 2) (voteCount e i + 1)) 200
     = readIntFromEEPROM e 200.
Proof.
  intros Hi Hroom. split.
  - rewrite all_votes_count_writeInt by assumption.
    pose proof (voteCount_le_total e i Hi).
    pose proof (readInt_range e 200).
    pose proof (readInt_range e (300 + i * 2)). unfold voteCount in *.
    rewrite Z.mod_small by lia. lia.
  - apply readInt_writeInt_other. lia.
Qed.

(** ** The bound on the votes cast *)

(** C1, the scenario that breaks the bound: from the reset defaults, one
    vote for C1 and one for C2, a power cycle (the booth has no exit), then
    the administrator stores a cap of 1. *)
Lemma cap_bound_broken_by_setMaxVoters :
  all_votes_count
    (EEPROM (globals (run fresh_device
                          (keys "21101*1*2" ++ [PowerCycle] ++ keys "11101*31#"))))
  = 2
  /\ readIntFromEEPROM
       (EEPROM (globals (run fresh_device
                             (keys "21101*1*2" ++ [PowerCycle] ++ keys "11101*31#"))))
       200
     = 1
  /\ cap_bound (EEPROM (globals fresh_device))
  /\ ~ cap_bound
       (EEPROM (globals (run fresh_device
                             (keys "21101*1*2" ++ [PowerCycle] ++ keys "11101*31#")))).
Proof.
  assert (Hcast :
            all_votes_count
              (EEPROM (globals (run fresh_device
                                    (keys "21101*1*2" ++ [PowerCycle]
                                          ++ keys "11101*31#")))) = 2)
    by (vm_compute; reflexivity).
  assert (Hcap :
            readIntFromEEPROM
              (EEPROM (globals (run fresh_device
                                    (keys "21101*1*2" ++ [PowerCycle]
                                          ++ keys "11101*31#")))) 200 = 1)
    by (vm_compute; reflexivity).
  split; [exact Hcast|]. split; [exact Hcap|]. split.
  - unfold cap_bound.
    replace (all_votes_count (EEPROM (globals fresh_device))) with 0
      by (vm_compute; reflexivity).
    replace (readIntFromEEPROM (EEPROM (globals fresh_device)) 200) with 100
      by (vm_compute; reflexivity).
    lia.
  - unfold cap_bound. rewrite Hcast, Hcap. lia.
Qed.

(** One key keeps the bound, unless it is the [#] of [setMaxVoters]
    committing a cap below the votes cast. *)
Lemma cap_bound_step (m : Machine RamEEPROM) (key : ascii) :
  cap_bound (EEPROM (globals m)) ->
  (forall t, frame m = InSetMaxVoters t -> key = "#"%char ->
             all_votes_count (EEPROM (globals m)) <= committed_maxVoters t) ->
  cap_bound (EEPROM (globals (fst (step m key)))).
Proof.
  intros Hbound Hcommit. unfold cap_bound in *.
  destruct (step_wrote m key) as [| |j v Hj|t Hframe Hkey|j b _ Hj Hroom].
  - exact Hbound.
  - destruct (reset_store_values m) as [-> ->]. lia.
  - destruct (flag_write_keeps_tally (EEPROM (globals m)) j v Hj) as [-> ->].
    exact Hbound.
  - destruct (cap_write_values (EEPROM (globals m)) t) as [-> ->].
    specialize (Hcommit t Hframe Hkey). lia.
  - destruct (vote_write_values (EEPROM (globals m)) j Hj Hroom) as [-> ->].
    lia.
Qed.

(** The booth is never left. *)
Lemma booth_has_no_exit {E : Type} `{EEPROMClass E} (m : Machine E) (key : ascii)
      (inputLocked : bool) :
  frame m = InVotingMenu inputLocked ->
  exists inputLocked', frame (fst (step m key)) = InVotingMenu inputLocked'.
Proof.
  intros Hframe. unfold step. rewrite Hframe.
  destruct (showVotingMenu_key (globals m) inputLocked key) as [[g b] shown].
  exists b. reflexivity.
Qed.

Lemma session_inv_step (m : Machine RamEEPROM) (key : ascii) :
  session_inv m -> session_inv (fst (step m key)).
Proof.
  intros [Hbound Hwhere].
  pose proof (all_votes_count_nonneg (EEPROM (globals m))) as Hnonneg.
  destruct Hwhere as [Hzero|[b Hframe]].
  - unfold session_inv, cap_bound in *.
    destruct (step_wrote m key) as [| |j v Hj|t Hframe Hkey|j b Hframe Hj Hroom].
    + auto.
    + destruct (reset_store_values m) as [-> ->]. split; [lia|auto].
    + destruct (flag_write_keeps_tally (EEPROM (globals m)) j v Hj) as [-> ->].
      auto.
    + destruct (cap_write_values (EEPROM (globals m)) t) as [-> ->].
      pose proof (committed_maxVoters_range t). split; [lia|auto].
    + destruct (vote_write_values (EEPROM (globals m)) j Hj Hroom) as [-> ->].
      split; [lia|]. right. apply (booth_has_no_exit m key b Hframe).
  - split.
    + apply cap_bound_step; [assumption|].
      intros t Ht. congruence.
    + right. apply (booth_has_no_exit m key b Hframe).
Qed.

Lemma session_inv_run (pressed : list ascii) (m : Machine RamEEPROM) :
  session_inv m -> session_inv (run m (map Key pressed)).
Proof.
  revert m. induction pressed as [|key pressed IH]; intros m Hinv.
  - exact Hinv.
  - cbn [map]. unfold run. cbn [fold_left feed].
    apply IH, session_inv_step, Hinv.
Qed.

(** C1 as the sketch has it: when the stored bytes satisfy
    0 <= votes cast <= cap, they still do after any key in any menu and
    after a power cycle, provided that a [#] pressed in [setMaxVoters]
    commits a cap that is not below the votes cast; after such a commit
    the bound holds exactly when the committed cap (the digits entered,
    forced into 1..65535) is at least the votes cast; and in a session
    powered on with no vote stored the bound holds after every sequence of
    keys, the booth having no exit back to the menus. *)
Theorem cap_bound_feed (m : Machine RamEEPROM) (i : Input) :
  (cap_bound (EEPROM (globals m)) ->
   (forall t, frame m = InSetMaxVoters t -> i = Key "#" ->
              all_votes_count (EEPROM (globals m)) <= committed_maxVoters t) ->
   cap_bound (EEPROM (globals (feed m i))))
  /\ (forall t, frame m = InSetMaxVoters t ->
                cap_bound (EEPROM (globals (feed m (Key "#"))))
                <-> all_votes_count (EEPROM (globals m)) <= committed_maxVoters t)
  /\ (forall pressed : list ascii,
         all_votes_count (EEPROM (globals m)) = 0 ->
         cap_bound
           (EEPROM (globals (run (fst (setup (EEPROM (globals m))))
                                 (map Key pressed))))).
Proof.
  split; [|split].
  - intros Hbound Hcommit. destruct i as [key|]; [|exact Hbound].
    cbn [feed]. apply cap_bound_step; [assumption|].
    intros t Hframe ->. auto.
  - intros t Hframe. cbn [feed]. unfold step. rewrite Hframe.
    unfold setMaxVoters_key.
    change (char_between "0" "9" "#") with false.
    change (char_eq "#" "#") with true. cbv iota.
    unfold enter_showAdminMenu, with_globals, goto.
    cbn [fst globals EEPROM]. unfold cap_bound.
    destruct (cap_write_values (EEPROM (globals m)) t) as [-> ->].
    pose proof (all_votes_count_nonneg (EEPROM (globals m))). lia.
  - intros pressed Hzero.
    apply (session_inv_run pressed (fst (setup (EEPROM (globals m))))).
    split; [|left; exact Hzero].
    unfold cap_bound.
    change (EEPROM (globals (fst (setup (EEPROM (globals m))))))
      with (EEPROM (globals m)).
    pose proof (readInt_range (EEPROM (globals m)) 200). lia.
Qed.

Lemma cap_bound_feed_witness :
  cap_bound (EEPROM (globals (feed (run fresh_device (keys "21101*1*")) (Key "5"))))
  /\ cap_bound
       (EEPROM (globals (feed (run fresh_device (keys "11101*37")) (Key "#"))))
  /\ cap_bound
       (EEPROM (globals (run (fst (setup (EEPROM (globals fresh_device))))
                             (map Key ["1"; "1"; "1"; "0"; "1"; "*"; "3"; "1"; "#"]%char)))).
Proof.
  split; [|split].
  - apply (proj1 (cap_bound_feed (run fresh_device (keys "21101*1*")) (Key "5"))).
    + unfold cap_bound.
      replace (all_votes_count _) with 1 by (vm_compute; reflexivity).
      replace (readIntFromEEPROM _ 200) with 100 by (vm_compute; reflexivity).
      lia.
    + intros t Hframe. vm_compute in Hframe. discriminate.
  - apply (proj1 (cap_bound_feed (run fresh_device (keys "11101*37")) (Key "#"))).
    + unfold cap_bound.
      replace (all_votes_count _) with 0 by (vm_compute; reflexivity).
      replace (readIntFromEEPROM _ 200) with 100 by (vm_compute; reflexivity).
      lia.
    + intros t Hframe _. vm_compute in Hframe. injection Hframe as <-.
      replace (all_votes_count _) with 0 by (vm_compute; reflexivity).
      vm_compute. discriminate.
  - apply (proj2 (proj2 (cap_bound_feed fresh_device PowerCycle))).
    vm_compute. reflexivity.
Defined.

(** ** The percentage of [showResults] *)

(** Whatever the EEPROM, a stored cap of 0 makes [showResults] divide by
    zero, and a stored cap other than 0 does not. *)
Lemma showResults_divides_by_cap {E : Type} `{EEPROMClass E} (e : E) :
  showResults e = None <-> readIntFromEEPROM e 200 = 0.
Proof.
  unfold showResults, int_div.
  destruct (results_scan e) as [[maxVotes winner] totalVotesCast].
  destruct (Z.eqb_spec (readIntFromEEPROM e 200) 0) as [Hzero|Hpos].
  - tauto.
  - split; [discriminate|contradiction].
Qed.

(** C5 on the sketch: with a stored cap of 0 (two votes cast), the results
    screen computes 200 / 0 and the sketch stops with the division
    exception instead of showing a screen, while [showGraph] on the same
    store guards its own division and draws its six bars. *)
Theorem showResults_zero_cap_divides_by_zero :
  readIntFromEEPROM zero_cap_store 200 = 0
  /\ all_votes_count zero_cap_store = 2
  /\ showResults zero_cap_store = None
  /\ step (run (fst (setup zero_cap_store)) (keys "11101*")) "2"
     = (call_from_admin (run (fst (setup zero_cap_store)) (keys "11101*")) Panicked,
        [])
  /\ showGraph zero_cap_store 80
     = [(70, true); (70, true); (0, false); (0, false); (0, false); (0, false)].
Proof. repeat split; vm_compute; reflexivity. Qed.

(** ** [setup] *)

(** What [setup] loads, on any EEPROM: the cap is the 16-bit value at 200
    and the flag of slot i is the byte at 100+i, but the entry i of [votes]
    is the single byte at 300+i. *)
Lemma setup_loads {E : Type} `{EEPROMClass E} (e : E) :
  maxVoters (globals (fst (setup e))) = readIntFromEEPROM e 200
  /\ enabledCandidates (globals (fst (setup e)))
     = map (fun i => negb (EEPROM_read e (100 + i) =? 0)) slots
  /\ votes (globals (fst (setup e)))
     = map (fun i => EEPROM_read e (300 + i)) slots
  /\ EEPROM (globals (fst (setup e))) = e.
Proof. repeat split. Qed.

(** C6 on the sketch: after power-on with one vote stored for C1 and one
    for C2, the cap and the six flags in memory are the stored ones, but
    [votes] holds 1,0,1,0,0,0 while the stored counts are 1,1,0,0,0,0:
    [votes[1]] is the high byte of the first count and [votes[2]] the low
    byte of the second. *)
Theorem setup_votes_not_the_stored_counts :
  map (voteCount two_votes_store) slots = [1; 1; 0; 0; 0; 0]
  /\ votes (globals (fst (setup two_votes_store))) = [1; 0; 1; 0; 0; 0]
  /\ votes (globals (fst (setup two_votes_store))) !!! 1%nat
     <> voteCount two_votes_store 1
  /\ maxVoters (globals (fst (setup two_votes_store)))
     = readIntFromEEPROM two_votes_store 200
  /\ enabledCandidates (globals (fst (setup two_votes_store)))
     = map (fun i => negb (EEPROM_read two_votes_store (100 + i) =? 0)) slots.
Proof.
  split; [vm_compute; reflexivity|].
  split; [vm_compute; reflexivity|].
  split; [vm_compute; discriminate|].
  split; reflexivity.
Qed.

(** ** More on the 16-bit helpers *)

(** X1: a value of 0..65535 written with [writeIntToEEPROM] inside the
    array is read back unchanged by [readIntFromEEPROM]; it is stored low
    byte first, and no other cell changes. *)
Theorem write_read_16 (e : RamEEPROM) (a v : Z) :
  0 <= a -> a + 1 < EEPROM_SIZE -> 0 <= v <= 65535 ->
  readIntFromEEPROM (writeIntToEEPROM e a v) a = v
  /\ EEPROM_read (writeIntToEEPROM e a v) a = v mod 256
  /\ EEPROM_read (writeIntToEEPROM e a v) (a + 1) = v / 256
  /\ (forall a', a' <> a -> a' <> a + 1 ->
                 EEPROM_read (writeIntToEEPROM e a v) a' = EEPROM_read e a').
Proof.
  intros Hlo Hhi Hv.
  assert (Ha : in_eeprom a = true) by (unfold in_eeprom; lia).
  assert (Ha1 : in_eeprom (a + 1) = true) by (unfold in_eeprom; lia).
  split; [|split; [|split]].
  - rewrite readInt_writeInt by assumption. apply Z.mod_small. lia.
  - unfold writeIntToEEPROM. change (EEPROM_commit ?x) with x.
    rewrite ram_read_write_other by lia.
    rewrite ram_read_write, Ha, Z.eqb_refl. cbn [andb].
    change 255 with (Z.ones 8). rewrite Z.land_ones by lia.
    apply Z.mod_mod. lia.
  - unfold writeIntToEEPROM. change (EEPROM_commit ?x) with x.
    rewrite ram_read_write, Ha1, Z.eqb_refl. cbn [andb].
    rewrite Z.shiftr_div_pow2 by lia. change (2 ^ 8) with 256.
    apply Z.mod_small.
    split; [apply Z.div_pos; lia|apply Z.div_lt_upper_bound; lia].
  - intros a' H1 H2. apply ram_read_writeInt_other; assumption.
Qed.

Lemma write_read_16_witness :
  readIntFromEEPROM (writeIntToEEPROM blank 300 513) 300 = 513
  /\ EEPROM_read (writeIntToEEPROM blank 300 513) 300 = 513 mod 256
  /\ EEPROM_read (writeIntToEEPROM blank 300 513) 301 = 513 / 256.
Proof.
  destruct (write_read_16 blank 300 513) as (H1 & H2 & H3 & _);
    [lia|unfold EEPROM_SIZE; lia|lia|].
  exact (conj H1 (conj H2 H3)).
Defined.

(** X2: [readIntFromEEPROM] always gives a value of 0..65535; at any
    address whose two bytes lie inside the array, a value of any size is
    stored modulo 65536; at the last cell (511) the upper byte of a written
    value is lost; at an address whose two bytes both lie outside the
    array (below -1, or 512 and above) reads give 0 and a write leaves the
    store as it was; and at address -1 the upper byte is cell 0: a read
    gives 256 times that cell and a write puts the upper byte of the value
    there. *)
Theorem read_write_16_bounds (e : RamEEPROM) (a v : Z) :
  0 <= readIntFromEEPROM e a <= 65535
  /\ (0 <= a -> a + 1 < EEPROM_SIZE ->
      readIntFromEEPROM (writeIntToEEPROM e a v) a = v mod 65536)
  /\ readIntFromEEPROM (writeIntToEEPROM e (EEPROM_SIZE - 1) v) (EEPROM_SIZE - 1)
     = v mod 256
  /\ (a < -1 \/ EEPROM_SIZE <= a ->
      readIntFromEEPROM e a = 0 /\ writeIntToEEPROM e a v = e)
  /\ readIntFromEEPROM e (-1) = EEPROM_read e 0 * 256
  /\ EEPROM_read (writeIntToEEPROM e (-1) v) 0 = (v / 256) mod 256.
Proof.
  split; [pose proof (readInt_range e a); lia|].
  split; [intros Hlo Hhi; apply readInt_writeInt; assumption|].
  split; [|split; [|split]].
  - rewrite readInt_value. unfold writeIntToEEPROM.
    change (EEPROM_commit ?x) with x. change (EEPROM_SIZE - 1) with 511.
    change (511 + 1) with 512.
    rewrite !ram_read_write.
    change (in_eeprom 512) with false. change (in_eeprom 511) with true.
    change (512 =? 511) with false. change (511 =? 511) with true.
    cbn [andb]. change (EEPROM_read e 512) with 0.
    change 255 with (Z.ones 8). rewrite Z.land_ones by lia.
    change (2 ^ 8) with 256. rewrite Z.mod_mod by lia. lia.
  - intros Hout.
    assert (Ha : in_eeprom a = false) by (unfold in_eeprom, EEPROM_SIZE in *; lia).
    assert (Ha1 : in_eeprom (a + 1) = false)
      by (unfold in_eeprom, EEPROM_SIZE in *; lia).
    split.
    + rewrite readInt_value. cbn [EEPROM_read ram_eeprom]. unfold ram_read.
      rewrite Ha, Ha1. reflexivity.
    + unfold writeIntToEEPROM. cbn [EEPROM_write EEPROM_commit ram_eeprom].
      unfold ram_write. rewrite Ha, Ha1. reflexivity.
  - rewrite readInt_value. change (-1 + 1) with 0.
    change (EEPROM_read e (-1)) with 0. lia.
  - unfold writeIntToEEPROM. change (EEPROM_commit ?x) with x.
    change (-1 + 1) with 0.
    rewrite ram_read_write. change (in_eeprom 0 && (0 =? 0)) with true.
    cbv iota. rewrite Z.shiftr_div_pow2 by lia. reflexivity.
Qed.

Lemma read_write_16_bounds_witness :
  readIntFromEEPROM (writeIntToEEPROM blank 200 70000) 200 = 70000 mod 65536
  /\ readIntFromEEPROM blank 600 = 0
  /\ writeIntToEEPROM blank 600 70000 = blank.
Proof.
  destruct (read_write_16_bounds blank 200 70000) as (_ & Hmod & _).
  destruct (read_write_16_bounds blank 600 70000) as (_ & _ & _ & Hout & _).
  split.
  - apply Hmod; unfold EEPROM_SIZE; lia.
  - apply Hout. right. unfold EEPROM_SIZE. lia.
Defined.

(** ** updateLEDs *)

(** X3: bit i of the byte [updateLEDs] shifts out is set exactly when the
    stored flag of slot i (the byte at 100+i) is not 0, and no bit above
    the sixth is set. *)
Theorem updateLEDs_bits {E : Type} `{EEPROMClass E} (e : E) (i : Z) :
  0 <= updateLEDs e < 64
  /\ (0 <= i <= 5 ->
      Z.testbit (updateLEDs e) i = negb (EEPROM_read e (i + 100) =? 0)).
Proof.
  unfold updateLEDs, slots. cbn [fold_left].
  split.
  - repeat match goal with
           | |- context [EEPROM_read e ?a =? 0] =>
               destruct (EEPROM_read e a =? 0)
           end; vm_compute; (split; [discriminate|reflexivity]).
  - intros Hi. each_slot i Hi;
      repeat match goal with
             | |- context [EEPROM_read e ?a =? 0] =>
                 destruct (EEPROM_read e a =? 0)
             end; reflexivity.
Qed.

Lemma updateLEDs_bits_witness :
  Z.testbit (updateLEDs reset_defaults) 4
  = negb (EEPROM_read reset_defaults (4 + 100) =? 0).
Proof.
  apply (proj2 (updateLEDs_bits reset_defaults 4)). lia.
Defined.

(** ** The results screen and the graph *)

Lemma wrap32_small (x : Z) : - 2 ^ 31 <= x < 2 ^ 31 -> wrap32 x = x.
Proof.
  intros Hx. unfold wrap32.
  change (2 ^ 31) with 2147483648 in *. change (2 ^ 32) with 4294967296.
  rewrite Z.mod_small by lia. lia.
Qed.


Lemma scan_total (c : Z -> Z) (l : list Z) (maxVotes winner total : Z) :
  snd (fold_left (scan_body c) l (maxVotes, winner, total))
  = fold_left (fun vote_t i => vote_t + c i) l total.
Proof.
  revert maxVotes winner total.
  induction l as [|i l IH]; intros maxVotes winner total; [reflexivity|].
  cbn [fold_left]. unfold scan_body at 2.
  destruct (c i >? maxVotes); apply IH.
Qed.

Lemma results_scan_total (e : RamEEPROM) :
  snd (results_scan e) = all_votes_count e.
Proof. exact (scan_total (voteCount e) slots 0 (-1) 0). Qed.

(** X4: with a stored cap other than 0, [showResults] shows the six stored
    counts, their sum (the same total the booth tests), the stored cap and
    the truncated percentage 100 * total / cap; when the total is within
    the cap the percentage is within 0..100. *)
Theorem showResults_summary (e : RamEEPROM) :
  readIntFromEEPROM e 200 <> 0 ->
  exists view,
    showResults e = Some view
    /\ perCandidateCounts view = map (voteCount e) slots
    /\ totalCast view = all_votes_count e
    /\ totalCap view = readIntFromEEPROM e 200
    /\ percentage view = all_votes_count e * 100 / readIntFromEEPROM e 200
    /\ (cap_bound e -> 0 <= percentage view <= 100).
Proof.
  intros Hcap.
  pose proof (results_scan_total e) as Htotal.
  pose proof (readInt_range e 200) as Hrange.
  pose proof (all_votes_count_nonneg e) as Hnonneg.
  unfold showResults, int_div.
  destruct (results_scan e) as [[maxVotes winner] totalVotesCast].
  cbn [snd] in Htotal. subst totalVotesCast.
  destruct (Z.eqb_spec (readIntFromEEPROM e 200) 0); [contradiction|].
  eexists. split; [reflexivity|].
  cbn [perCandidateCounts totalCast totalCap percentage].
  rewrite Z.quot_div_nonneg by lia.
  split; [reflexivity|]. split; [reflexivity|]. split; [reflexivity|].
  split; [reflexivity|]. intros [_ Hle]. split.
  - apply Z.div_pos; lia.
  - apply Z.div_le_upper_bound; lia.
Qed.

Lemma showResults_summary_witness :
  exists view,
    showResults two_votes_store = Some view
    /\ totalCast view = all_votes_count two_votes_store
    /\ percentage view
       = all_votes_count two_votes_store * 100
         / readIntFromEEPROM two_votes_store 200.
Proof.
  destruct (showResults_summary two_votes_store) as (view & H1 & _ & H2 & _ & H3 & _).
  - vm_compute. discriminate.
  - exists view. exact (conj H1 (conj H2 H3)).
Defined.

Lemma max_loop (c : Z -> Z) (l : list Z) (maxVotes : Z) :
  let found := fold_left (fun maxVotes i =>
                            if c i >? maxVotes then c i else maxVotes)
                         l maxVotes in
  maxVotes <= found
  /\ (forall i, In i l -> c i <= found)
  /\ (found = maxVotes \/ exists i, In i l /\ c i = found).
Proof.
  revert maxVotes. induction l as [|i l IH]; intros maxVotes; cbn [fold_left].
  - cbn. split; [lia|]. split; [intros i []|auto].
  - cbv zeta in IH.
    destruct (Z.gtb_spec (c i) maxVotes) as [Hgt|Hle].
    + destruct (IH (c i)) as (Hmono & Hub & Hwho).
      split; [lia|]. split.
      * intros j [<-|Hj]; [lia|auto].
      * right. destruct Hwho as [->|(j & Hj & Hc)].
        -- exists i. split; [left|]; reflexivity.
        -- exists j. split; [right|]; assumption.
    + destruct (IH maxVotes) as (Hmono & Hub & Hwho).
      split; [lia|]. split.
      * intros j [<-|Hj]; [lia|auto].
      * destruct Hwho as [->|(j & Hj & Hc)]; [auto|].
        right. exists j. split; [right|]; assumption.
Qed.

Lemma graph_maxVotes_is_max (e : RamEEPROM) :
  (forall i, In i slots -> voteCount e i <= graph_maxVotes e)
  /\ ((graph_maxVotes e = 0 /\ forall i, In i slots -> voteCount e i = 0)
      \/ (0 < graph_maxVotes e
          /\ exists i, In i slots /\ voteCount e i = graph_maxVotes e)).
Proof.
  destruct (max_loop (voteCount e) slots 0) as (Hnonneg & Hub & Hwho).
  change (fold_left _ slots 0) with (graph_maxVotes e) in *.
  split; [exact Hub|].
  assert (Hc0 : forall i, 0 <= voteCount e i) by (intros i; apply readInt_range).
  destruct (Z.eq_dec (graph_maxVotes e) 0) as [Hzero|Hpos].
  - left. split; [assumption|]. intros i Hi.
    specialize (Hub i Hi). specialize (Hc0 i). lia.
  - right. split; [lia|]. destruct Hwho as [?|?]; [contradiction|assumption].
Qed.

Lemma graph_product_fits (e : RamEEPROM) (i maxHeight : Z) :
  0 <= maxHeight <= 32768 ->
  wrap32 (voteCount e i * maxHeight) = voteCount e i * maxHeight.
Proof.
  intros Hh. apply wrap32_small.
  pose proof (readInt_range e (300 + i * 2)) as Hc. fold (voteCount e i) in Hc.
  change (2 ^ 31) with 2147483648. nia.
Qed.

(** X5: for a base line between 10 and 32778 pixels down (the sketch calls
    it with 80; up to 32778 the product of a count and the plot height
    stays inside [int]), [showGraph] draws six bars, none taller than the
    plot height (base - 10) and none negative; the bar of a slot has the
    winner colour exactly when the slot's count is not 0 and no slot has a
    larger one, and such a bar has the full height; with no vote stored
    every bar has height 0 and none has the winner colour, otherwise at
    least one bar has it. *)
Theorem showGraph_bars (e : RamEEPROM) (graphBaseY : Z) :
  10 <= graphBaseY <= 32778 ->
  length (showGraph e graphBaseY) = 6%nat
  /\ (forall barHeight isWinner,
         In (barHeight, isWinner) (showGraph e graphBaseY) ->
         0 <= barHeight <= graphBaseY - 10
         /\ (isWinner = true -> barHeight = graphBaseY - 10))
  /\ (forall i, In i slots ->
                snd (nth (Z.to_nat i) (showGraph e graphBaseY) (0, false)) = true
                <-> 0 < voteCount e i
                    /\ forall j, In j slots -> voteCount e j <= voteCount e i)
  /\ (all_votes_count e = 0 ->
      showGraph e graphBaseY = repeat (0, false) 6)
  /\ (0 < all_votes_count e ->
      In (graphBaseY - 10, true) (showGraph e graphBaseY)).
Proof.
  intros Hbase.
  assert (Hheight : 0 <= graphBaseY - 10 <= 32768) by lia.
  destruct (graph_maxVotes_is_max e) as [Hub Hwho].
  assert (Hc0 : forall i, 0 <= voteCount e i) by (intros i; apply readInt_range).
  assert (Htotal : all_votes_count e = 0 <->
                   forall i, In i slots -> voteCount e i = 0).
  { rewrite all_votes_count_sum. split.
    - intros Hsum i Hi.
      pose proof (Hc0 0). pose proof (Hc0 1). pose proof (Hc0 2).
      pose proof (Hc0 3). pose proof (Hc0 4). pose proof (Hc0 5).
      cbn in Hi. intuition (subst; lia).
    - intros Hall.
      rewrite (Hall 0), (Hall 1), (Hall 2), (Hall 3), (Hall 4), (Hall 5);
        cbn; tauto. }
  split; [reflexivity|]. split; [|split; [|split]].
  - intros barHeight isWinner Hin. unfold showGraph in Hin.
    apply in_map_iff in Hin as (i & Hbar & Hi).
    fold (voteCount e i) in Hbar.
    rewrite graph_product_fits in Hbar by assumption.
    injection Hbar as <- <-.
    specialize (Hub i Hi). specialize (Hc0 i).
    destruct Hwho as [[Hzero _]|[Hpos _]].
    + rewrite Hzero. cbn [Z.eqb Z.gtb Z.compare]. rewrite andb_false_r.
      split; [lia|discriminate].
    + destruct (Z.eqb_spec (graph_maxVotes e) 0) as [|_]; [lia|].
      rewrite Z.quot_div_nonneg by nia.
      split.
      * split; [apply Z.div_pos; nia|apply Z.div_le_upper_bound; nia].
      * intros Hwin. apply andb_true_iff in Hwin as [Heq _].
        apply Z.eqb_eq in Heq. rewrite Heq, Z.mul_comm. apply Z.div_mul. lia.
  - intros i Hi.
    assert (Hbar : snd (nth (Z.to_nat i) (showGraph e graphBaseY) (0, false))
                   = (voteCount e i =? graph_maxVotes e)
                     && (graph_maxVotes e >? 0)).
    { cbn in Hi.
      destruct Hi as [<-|[<-|[<-|[<-|[<-|[<-|[]]]]]]]; reflexivity. }
    rewrite Hbar, andb_true_iff, Z.eqb_eq. split.
    + intros [Hc Hpos]. apply Z.gtb_lt in Hpos.
      split; [lia|]. intros j Hj. rewrite Hc. auto.
    + intros [Hpos Hbeats]. specialize (Hub i Hi).
      destruct Hwho as [[Hzero _]|[HM (i0 & Hi0 & Hc)]]; [lia|].
      specialize (Hbeats i0 Hi0). split; [lia|]. apply Z.gtb_lt. lia.
  - intros Hnone. rewrite Htotal in Hnone.
    destruct Hwho as [[Hzero _]|[Hpos (i & Hi & Hc)]].
    + unfold showGraph. rewrite Hzero. cbn [map slots Z.eqb Z.gtb Z.compare].
      rewrite !andb_false_r. reflexivity.
    + rewrite (Hnone i Hi) in Hc. lia.
  - intros Hsome.
    destruct Hwho as [[_ Hall]|[Hpos (i & Hi & Hc)]].
    + apply Htotal in Hall. lia.
    + unfold showGraph. apply in_map_iff. exists i.
      split; [|assumption]. fold (voteCount e i).
      rewrite graph_product_fits by assumption. rewrite Hc.
      destruct (Z.eqb_spec (graph_maxVotes e) 0) as [|_]; [lia|].
      destruct (Z.gtb_spec (graph_maxVotes e) 0); [|lia].
      rewrite Z.eqb_refl, Z.mul_comm, Z.quot_mul by lia. reflexivity.
Qed.

Lemma showGraph_bars_witness :
  length (showGraph two_votes_store 80) = 6%nat
  /\ In (80 - 10, true) (showGraph two_votes_store 80).
Proof.
  destruct (showGraph_bars two_votes_store 80) as (Hlen & _ & _ & _ & Hwin).
  - lia.
  - split; [exact Hlen|]. apply Hwin. vm_compute. reflexivity.
Defined.

(** ** More on the booth *)

Lemma run_cons {E : Type} `{EEPROMClass E} (m : Machine E) (key : ascii)
      (pressed : list ascii) :
  run m (map Key (key :: pressed)) = run (fst (step m key)) (map Key pressed).
Proof. reflexivity. Qed.

(** X6: in the booth, a digit of a slot whose flag in [enabledCandidates]
    is false changes nothing, locked or not; unlocked, the "candidate
    disabled" screen is shown and the booth stays unlocked. *)
Theorem disabled_candidate_refused {E : Type} `{EEPROMClass E}
        (m : Machine E) (inputLocked : bool) (key : ascii) :
  frame m = InVotingMenu inputLocked ->
  char_between "1" "6" key = true ->
  enabledCandidates (globals m) !!! Z.to_nat (ord key - ord "1") = false ->
  fst (step m key) = m
  /\ snd (step m key)
     = if inputLocked then []
       else [Show CandidateDisabled; Show VotingBoothScreen].
Proof.
  intros Hframe Hkey Hoff. unfold step. rewrite Hframe.
  unfold showVotingMenu_key. rewrite Hkey, Hoff.
  rewrite (digit_is_not_star key Hkey).
  destruct m as [g f s]. cbn in Hframe. subst f.
  destruct inputLocked; cbn; auto.
Qed.

Lemma disabled_candidate_refused_witness :
  fst (step (run fresh_device (keys "11101*13##21101*")) "3")
  = run fresh_device (keys "11101*13##21101*")
  /\ snd (step (run fresh_device (keys "11101*13##21101*")) "3")
     = [Show CandidateDisabled; Show VotingBoothScreen].
Proof.
  apply (disabled_candidate_refused
           (run fresh_device (keys "11101*13##21101*")) false "3");
    reflexivity.
Defined.

(** When the votes cast have reached the stored cap, no key of the booth
    changes the globals. *)
Lemma full_booth_key {E : Type} `{EEPROMClass E}
      (m : Machine E) (inputLocked : bool) (key : ascii) :
  frame m = InVotingMenu inputLocked ->
  readIntFromEEPROM (EEPROM (globals m)) 200
  <= all_votes_count (EEPROM (globals m)) ->
  globals (fst (step m key)) = globals m
  /\ suspended (fst (step m key)) = suspended m
  /\ (exists inputLocked', frame (fst (step m key)) = InVotingMenu inputLocked')
  /\ (char_between "1" "6" key = true -> inputLocked = false ->
      frame (fst (step m key)) = InVotingMenu false
      /\ exists s, snd (step m key) = [Show s; Show VotingBoothScreen]
                   /\ (s = CandidateDisabled \/ s = VoteBoxFull)).
Proof.
  intros Hframe Hfull. unfold step. rewrite Hframe.
  unfold showVotingMenu_key.
  destruct (Z.ltb_spec (all_votes_count (EEPROM (globals m)))
                       (readIntFromEEPROM (EEPROM (globals m)) 200)); [lia|].
  rewrite andb_false_r.
  destruct (char_between "1" "6" key && negb inputLocked) eqn:Hdigit.
  - cbn. split; [reflexivity|]. split; [reflexivity|]. split; [eauto|].
    intros _ ->. split; [reflexivity|].
    destruct (enabledCandidates (globals m) !!! _);
      [exists VoteBoxFull|exists CandidateDisabled]; auto.
  - destruct (char_eq key "*"); cbn.
    + split; [reflexivity|]. split; [reflexivity|]. split; [eauto|].
      intros Hkey ->. rewrite Hkey in Hdigit. discriminate.
    + split; [reflexivity|]. split; [reflexivity|]. split; [eauto|].
      intros Hkey ->. rewrite Hkey in Hdigit. discriminate.
Qed.

(** X7: once the stored counts add up to the stored cap or more, no
    sequence of keys in the booth changes any global (so no count, flag or
    cap), and an unlocked digit press only gets the "disabled" or the
    "vote box is full" screen and leaves the booth unlocked. *)
Theorem full_booth_accepts_nothing {E : Type} `{EEPROMClass E}
        (m : Machine E) (inputLocked : bool) :
  frame m = InVotingMenu inputLocked ->
  readIntFromEEPROM (EEPROM (globals m)) 200
  <= all_votes_count (EEPROM (globals m)) ->
  (forall pressed : list ascii, globals (run m (map Key pressed)) = globals m)
  /\ (forall key, char_between "1" "6" key = true -> inputLocked = false ->
                  frame (fst (step m key)) = InVotingMenu false
                  /\ exists s, snd (step m key) = [Show s; Show VotingBoothScreen]
                               /\ (s = CandidateDisabled \/ s = VoteBoxFull)).
Proof.
  intros Hframe Hfull. split.
  - intros pressed. revert m inputLocked Hframe Hfull.
    induction pressed as [|key pressed IH]; intros m inputLocked Hframe Hfull;
      [reflexivity|].
    rewrite run_cons.
    destruct (full_booth_key m inputLocked key Hframe Hfull)
      as (Hglobals & _ & (b & Hframe') & _).
    rewrite (IH (fst (step m key)) b Hframe') by (rewrite Hglobals; exact Hfull).
    exact Hglobals.
  - intros key. apply (full_booth_key m inputLocked key Hframe Hfull).
Qed.

Lemma full_booth_accepts_nothing_witness :
  globals (run (run fresh_device (keys "11101*31#" ++ keys "#21101*1"))
               (map Key ["*"; "2"; "*"; "3"]%char))
  = globals (run fresh_device (keys "11101*31#" ++ keys "#21101*1")).
Proof.
  destruct (full_booth_accepts_nothing
              (run fresh_device (keys "11101*31#" ++ keys "#21101*1")) true)
    as [Hsame _].
  - reflexivity.
  - vm_compute. discriminate.
  - apply Hsame.
Defined.

(** What one key of the booth does on the RAM-backed store: nothing to the
    globals, or one accepted vote that locks the booth. *)
Lemma booth_step_cases (m : Machine RamEEPROM) (inputLocked : bool) (key : ascii) :
  frame m = InVotingMenu inputLocked ->
  (globals (fst (step m key)) = globals m
   /\ exists inputLocked',
       frame (fst (step m key)) = InVotingMenu inputLocked'
       /\ (char_eq key "*" = false -> inputLocked' = inputLocked))
  \/ (inputLocked = false
      /\ frame (fst (step m key)) = InVotingMenu true
      /\ exists i,
          0 <= i <= 5
          /\ all_votes_count (EEPROM (globals m))
             < readIntFromEEPROM (EEPROM (globals m)) 200
          /\ EEPROM (globals (fst (step m key)))
             = writeIntToEEPROM (EEPROM (globals m)) (300 + i * 2)
                                (voteCount (EEPROM (globals m)) i + 1)).
Proof.
  intros Hframe. unfold step. rewrite Hframe.
  destruct (char_between "1" "6" key) eqn:Hkey.
  - destruct inputLocked.
    + left. unfold showVotingMenu_key. rewrite Hkey. cbn [negb andb].
      rewrite (digit_is_not_star key Hkey). cbn. eauto.
    + destruct (enabledCandidates (globals m) !!! Z.to_nat (ord key - ord "1"))
        eqn:Hen.
      * destruct (Z.ltb_spec (all_votes_count (EEPROM (globals m)))
                             (readIntFromEEPROM (EEPROM (globals m)) 200))
          as [Hroom|Hfull].
        -- right. rewrite showVotingMenu_key_cast by assumption. cbn.
           split; [reflexivity|]. split; [reflexivity|].
           exists (ord key - ord "1").
           auto using candidate_index_range.
        -- left. unfold showVotingMenu_key. rewrite Hkey, Hen.
           destruct (Z.ltb_spec (all_votes_count (EEPROM (globals m)))
                                (readIntFromEEPROM (EEPROM (globals m)) 200));
             [lia|].
           cbn. eauto.
      * left. unfold showVotingMenu_key. rewrite Hkey, Hen. cbn. eauto.
  - left. unfold showVotingMenu_key. rewrite Hkey. cbn [andb].
    destruct (char_eq key "*"); cbn.
    + split; [reflexivity|]. exists false. split; [reflexivity|discriminate].
    + eauto.
Qed.

Lemma locked_run_ignored {E : Type} `{EEPROMClass E} (m : Machine E)
      (pressed : list ascii) :
  frame m = InVotingMenu true ->
  Forall (fun key => char_eq key "*" = false) pressed ->
  run m (map Key pressed) = m.
Proof.
  intros Hframe Hkeys.
  induction Hkeys as [|key pressed Hkey _ IH]; [reflexivity|].
  rewrite run_cons, locked_key_ignored by assumption. exact IH.
Qed.

Lemma vote_write_counts (e : RamEEPROM) (i j : Z) :
  0 <= i <= 5 -> 0 <= j <= 5 ->
  all_votes_count e < readIntFromEEPROM e 200 ->
  voteCount (writeIntToEEPROM e (300 + i * 2) (voteCount e i + 1)) j
  = if j =? i then voteCount e j + 1 else voteCount e j.
Proof.
  intros Hi Hj Hroom. rewrite voteCount_writeInt by assumption.
  destruct (Z.eqb_spec j i) as [->|]; [|reflexivity].
  apply Z.mod_small.
  pose proof (voteCount_le_total e i Hi).
  pose proof (readInt_range e 200).
  pose proof (readInt_range e (300 + i * 2)). unfold voteCount in *. lia.
Qed.

(** X8: in the booth, a sequence of keys without [*] raises the votes cast
    by at most one, whatever digits it holds and in whatever order; from a
    locked booth it raises them by none. *)
Theorem one_vote_per_unlock (m : Machine RamEEPROM) (inputLocked : bool)
        (pressed : list ascii) :
  frame m = InVotingMenu inputLocked ->
  Forall (fun key => char_eq key "*" = false) pressed ->
  all_votes_count (EEPROM (globals m))
  <= all_votes_count (EEPROM (globals (run m (map Key pressed))))
  <= all_votes_count (EEPROM (globals m)) + (if inputLocked then 0 else 1).
Proof.
  intros Hframe Hkeys. revert m inputLocked Hframe.
  induction Hkeys as [|key pressed Hkey Hrest IH]; intros m inputLocked Hframe.
  - cbn. destruct inputLocked; lia.
  - rewrite run_cons.
    destruct (booth_step_cases m inputLocked key Hframe)
      as [(Hglobals & b & Hframe' & Hlock)
         |(-> & Hframe' & i & Hi & Hroom & Hwrote)].
    + rewrite (Hlock Hkey) in Hframe'.
      specialize (IH (fst (step m key)) inputLocked Hframe').
      rewrite Hglobals in IH. exact IH.
    + rewrite (locked_run_ignored (fst (step m key)) pressed Hframe' Hrest).
      rewrite Hwrote.
      destruct (vote_write_values (EEPROM (globals m)) i Hi Hroom) as [-> _].
      lia.
Qed.

Lemma one_vote_per_unlock_witness :
  all_votes_count (EEPROM (globals (run fresh_device (keys "21101*"))))
  <= all_votes_count
       (EEPROM (globals (run (run fresh_device (keys "21101*"))
                             (map Key ["2"; "2"; "5"; "#"; "1"]%char))))
  <= all_votes_count (EEPROM (globals (run fresh_device (keys "21101*")))) + 1.
Proof.
  apply (one_vote_per_unlock (run fresh_device (keys "21101*")) false).
  - reflexivity.
  - repeat constructor.
Defined.

(** X9: no sequence of keys in the booth ever lowers a stored count, and
    none changes a stored byte outside the twelve count bytes 300..311 (so
    neither a flag nor the cap). *)
Theorem booth_counts_never_decrease (m : Machine RamEEPROM) (inputLocked : bool)
        (pressed : list ascii) :
  frame m = InVotingMenu inputLocked ->
  (forall j, 0 <= j <= 5 ->
             voteCount (EEPROM (globals m)) j
             <= voteCount (EEPROM (globals (run m (map Key pressed)))) j)
  /\ (forall a, a < 300 \/ 311 < a ->
                EEPROM_read (EEPROM (globals (run m (map Key pressed)))) a
                = EEPROM_read (EEPROM (globals m)) a).
Proof.
  revert m inputLocked.
  induction pressed as [|key pressed IH]; intros m inputLocked Hframe.
  - split; [intros; cbn; lia|reflexivity].
  - rewrite run_cons.
    destruct (booth_step_cases m inputLocked key Hframe)
      as [(Hglobals & b & Hframe' & _)
         |(_ & Hframe' & i & Hi & Hroom & Hwrote)].
    + destruct (IH (fst (step m key)) b Hframe') as [Hcounts Hbytes].
      rewrite Hglobals in Hcounts, Hbytes. auto.
    + destruct (IH (fst (step m key)) true Hframe') as [Hcounts Hbytes].
      rewrite Hwrote in Hcounts, Hbytes. split.
      * intros j Hj. specialize (Hcounts j Hj).
        rewrite vote_write_counts in Hcounts by assumption.
        destruct (j =? i); lia.
      * intros a Ha. rewrite (Hbytes a Ha).
        apply ram_read_writeInt_other; lia.
Qed.

Lemma booth_counts_never_decrease_witness :
  voteCount (EEPROM (globals (run fresh_device (keys "21101*")))) 1
  <= voteCount
       (EEPROM (globals (run (run fresh_device (keys "21101*"))
                             (map Key ["2"; "*"; "5"; "*"; "2"]%char)))) 1.
Proof.
  refine (proj1 (booth_counts_never_decrease
                   (run fresh_device (keys "21101*")) false _ _) 1 _);
    [reflexivity|lia].
Defined.

(** ** enableCandidates *)

Lemma enableCandidates_key_toggle {E : Type} `{EEPROMClass E}
      (m : Machine E) (key : ascii) :
  char_between "1" "6" key = true ->
  fst (enableCandidates_key m key)
  = with_globals m
      ({| EEPROM :=
           EEPROM_commit
             (EEPROM_write (EEPROM (globals m)) (100 + (ord key - ord "1"))
                (if negb (enabledCandidates (globals m)
                            !!! Z.to_nat (ord key - ord "1"))
                 then 1 else 0));
         votes := votes (globals m);
         enabledCandidates :=
           <[Z.to_nat (ord key - ord "1") :=
               negb (enabledCandidates (globals m)
                       !!! Z.to_nat (ord key - ord "1"))]>
             (enabledCandidates (globals m));
         maxVoters := maxVoters (globals m) |} : Globals E).
Proof. intros Hkey. unfold enableCandidates_key. rewrite Hkey. reflexivity. Qed.

(** X10: in [enableCandidates], a digit 1-6 negates the flag of its slot
    in memory and stores the new flag as 1 or 0 at 100+slot; the other
    flags, in memory and stored, the six counts and the cap are unchanged,
    the loop keeps polling, and the same digit again restores the flag. *)
Theorem toggle_candidate (m : Machine RamEEPROM) (key : ascii) :
  frame m = InEnableCandidates ->
  char_between "1" "6" key = true ->
  length (enabledCandidates (globals m)) = 6%nat ->
  enabledCandidates (globals (fst (step m key))) !!! Z.to_nat (ord key - ord "1")
  = negb (enabledCandidates (globals m) !!! Z.to_nat (ord key - ord "1"))
  /\ EEPROM_read (EEPROM (globals (fst (step m key)))) (100 + (ord key - ord "1"))
     = (if (enabledCandidates (globals m) !!! Z.to_nat (ord key - ord "1")
            : bool)
        then 0 else 1)
  /\ (forall j, 0 <= j <= 5 -> j <> ord key - ord "1" ->
        enabledCandidates (globals (fst (step m key))) !!! Z.to_nat j
        = enabledCandidates (globals m) !!! Z.to_nat j
        /\ EEPROM_read (EEPROM (globals (fst (step m key)))) (100 + j)
           = EEPROM_read (EEPROM (globals m)) (100 + j))
  /\ (forall j, 0 <= j <= 5 ->
        voteCount (EEPROM (globals (fst (step m key)))) j
        = voteCount (EEPROM (globals m)) j)
  /\ readIntFromEEPROM (EEPROM (globals (fst (step m key)))) 200
     = readIntFromEEPROM (EEPROM (globals m)) 200
  /\ frame (fst (step m key)) = InEnableCandidates
  /\ enabledCandidates (globals (fst (step (fst (step m key)) key)))
     = enabledCandidates (globals m).
Proof.
  intros Hframe Hkey Hlen.
  pose proof (candidate_index_range key Hkey) as Hi.
  assert (Hstep : forall m0 : Machine RamEEPROM,
             frame m0 = InEnableCandidates ->
             fst (step m0 key) = fst (enableCandidates_key m0 key)).
  { intros m0 Hf. unfold step. rewrite Hf. reflexivity. }
  assert (Hframe' : frame (fst (step m key)) = InEnableCandidates).
  { rewrite Hstep, enableCandidates_key_toggle by assumption. exact Hframe. }
  rewrite (Hstep _ Hframe'), (Hstep m Hframe).
  rewrite (enableCandidates_key_toggle (fst (enableCandidates_key m key)))
    by assumption.
  rewrite enableCandidates_key_toggle by assumption.
  cbn [with_globals globals EEPROM enabledCandidates frame].
  change (EEPROM_commit ?x) with x.
  split; [|split; [|split; [|split; [|split; [|split]]]]].
  - apply list_lookup_total_insert_eq. lia.
  - rewrite ram_read_write.
    replace (in_eeprom (100 + (ord key - ord "1"))) with true
      by (unfold in_eeprom, EEPROM_SIZE; lia).
    rewrite Z.eqb_refl. cbn [andb].
    destruct (enabledCandidates (globals m) !!! _); reflexivity.
  - intros j Hj Hne. split.
    + apply list_lookup_total_insert_ne. lia.
    + apply ram_read_write_other. lia.
  - intros j Hj. unfold voteCount. apply readInt_write_other; lia.
  - apply readInt_write_other; lia.
  - exact Hframe.
  - rewrite list_lookup_total_insert_eq by lia.
    rewrite list_insert_insert_eq, negb_involutive.
    apply list_insert_id, list_lookup_lookup_total_lt. lia.
Qed.

Lemma toggle_candidate_witness :
  enabledCandidates (globals (fst (step (run fresh_device (keys "11101*1")) "4")))
    !!! Z.to_nat (ord "4" - ord "1")
  = negb (enabledCandidates (globals (run fresh_device (keys "11101*1")))
            !!! Z.to_nat (ord "4" - ord "1"))
  /\ EEPROM_read
       (EEPROM (globals (fst (step (run fresh_device (keys "11101*1")) "4"))))
       (100 + (ord "4" - ord "1"))
     = 0.
Proof.
  destruct (toggle_candidate (run fresh_device (keys "11101*1")) "4")
    as (Hflag & Hbyte & _); try reflexivity.
  exact (conj Hflag Hbyte).
Defined.

(** ** resetEEPROM *)

Lemma reset_written_bytes (m : Machine RamEEPROM) (a : Z) :
  EEPROM_read (EEPROM (globals (fst (run_resetEEPROM m)))) a
  = if (100 <=? a) && (a <=? 105) then 1
    else if a =? 200 then 100
    else if (a =? 201) || ((300 <=? a) && (a <=? 311)) then 0
    else EEPROM_read (EEPROM (globals m)) a.
Proof.
  destruct m as [[e vs en mv] f s].
  destruct (Z.leb_spec 100 a); [destruct (Z.leb_spec a 105)|]; cbn [andb].
  - assert (Ha : a = 100 \/ a = 101 \/ a = 102 \/ a = 103 \/ a = 104 \/ a = 105)
      by lia.
    destruct Ha as [->|[->|[->|[->|[->| ->]]]]]; vm_compute; reflexivity.
  - destruct (Z.eqb_spec a 200) as [->|]; [vm_compute; reflexivity|].
    destruct (Z.eqb_spec a 201) as [->|]; [vm_compute; reflexivity|].
    cbn [orb].
    destruct (Z.leb_spec 300 a); [destruct (Z.leb_spec a 311)|]; cbn [andb].
    + assert (Ha : a = 300 \/ a = 301 \/ a = 302 \/ a = 303 \/ a = 304
                   \/ a = 305 \/ a = 306 \/ a = 307 \/ a = 308 \/ a = 309
                   \/ a = 310 \/ a = 311) by lia.
      destruct Ha as [->|[->|[->|[->|[->|[->|[->|[->|[->|[->|[->| ->]]]]]]]]]]];
        vm_compute; reflexivity.
    + unfold run_resetEEPROM. cbn [fold_left slots globals EEPROM votes fst
                                    enter_showAdminMenu with_globals goto].
      unfold writeIntToEEPROM.
      repeat progress change (EEPROM_commit ?x) with x.
      rewrite !ram_read_write_other by lia. reflexivity.
    + unfold run_resetEEPROM. cbn [fold_left slots globals EEPROM votes fst
                                    enter_showAdminMenu with_globals goto].
      unfold writeIntToEEPROM.
      repeat progress change (EEPROM_commit ?x) with x.
      rewrite !ram_read_write_other by lia. reflexivity.
  - destruct (Z.eqb_spec a 200); [lia|]. destruct (Z.eqb_spec a 201); [lia|].
    destruct (Z.leb_spec 300 a); [lia|]. cbn [orb andb].
    unfold run_resetEEPROM. cbn [fold_left slots globals EEPROM votes fst
                                  enter_showAdminMenu with_globals goto].
    unfold writeIntToEEPROM.
      repeat progress change (EEPROM_commit ?x) with x.
    rewrite !ram_read_write_other by lia. reflexivity.
Qed.

(** X11: whatever was stored, [resetEEPROM] leaves every stored flag at 1,
    every stored count at 0 and the stored cap at 100, touches no other
    byte, and a second reset changes no byte at all; but in memory only
    [votes] is cleared: [enabledCandidates] and [maxVoters] keep their
    values, so a slot disabled in memory stays disabled for the booth. *)
Theorem resetEEPROM_effect (m : Machine RamEEPROM) :
  (forall j, 0 <= j <= 5 ->
     EEPROM_read (EEPROM (globals (fst (run_resetEEPROM m)))) (100 + j) = 1
     /\ voteCount (EEPROM (globals (fst (run_resetEEPROM m)))) j = 0)
  /\ readIntFromEEPROM (EEPROM (globals (fst (run_resetEEPROM m)))) 200
     = default_maxVoters
  /\ (forall a, a < 100 \/ 105 < a < 200 \/ 201 < a < 300 \/ 311 < a ->
        EEPROM_read (EEPROM (globals (fst (run_resetEEPROM m)))) a
        = EEPROM_read (EEPROM (globals m)) a)
  /\ (forall a,
        EEPROM_read
          (EEPROM (globals (fst (run_resetEEPROM (fst (run_resetEEPROM m)))))) a
        = EEPROM_read (EEPROM (globals (fst (run_resetEEPROM m)))) a)
  /\ enabledCandidates (globals (fst (run_resetEEPROM m)))
     = enabledCandidates (globals m)
  /\ maxVoters (globals (fst (run_resetEEPROM m))) = maxVoters (globals m)
  /\ (length (votes (globals m)) = 6%nat ->
      votes (globals (fst (run_resetEEPROM m))) = [0; 0; 0; 0; 0; 0])
  /\ frame (fst (run_resetEEPROM m)) = InAdminMenu.
Proof.
  split; [|split; [|split; [|split; [|split; [|split; [|split]]]]]].
  - intros j Hj. split.
    + rewrite reset_written_bytes.
      destruct (Z.leb_spec 100 (100 + j)), (Z.leb_spec (100 + j) 105);
        try lia. reflexivity.
    + unfold voteCount. rewrite readInt_value, !reset_written_bytes.
      each_slot j Hj; reflexivity.
  - rewrite readInt_value, !reset_written_bytes. reflexivity.
  - intros a Ha. rewrite reset_written_bytes.
    destruct (Z.leb_spec 100 a), (Z.leb_spec a 105), (Z.eqb_spec a 200),
      (Z.eqb_spec a 201), (Z.leb_spec 300 a), (Z.leb_spec a 311);
      cbn [andb orb]; try lia; reflexivity.
  - intros a. rewrite (reset_written_bytes (fst (run_resetEEPROM m))).
    rewrite (reset_written_bytes m).
    destruct ((100 <=? a) && (a <=? 105)); [reflexivity|].
    destruct (a =? 200); [reflexivity|].
    destruct ((a =? 201) || _); reflexivity.
  - destruct m as [[e vs en mv] f s]. reflexivity.
  - destruct m as [[e vs en mv] f s]. reflexivity.
  - destruct m as [[e vs en mv] f s]. cbn [globals votes]. intros Hlen.
    destruct vs as [|v0 [|v1 [|v2 [|v3 [|v4 [|v5 [|v6 vs]]]]]]];
      try discriminate. reflexivity.
  - destruct m as [[e vs en mv] f s]. reflexivity.
Qed.

Lemma resetEEPROM_effect_witness :
  votes (globals (fst (run_resetEEPROM (fst (setup two_votes_store)))))
  = [0; 0; 0; 0; 0; 0].
Proof.
  apply (resetEEPROM_effect (fst (setup two_votes_store))). reflexivity.
Defined.

(** ** setMaxVoters *)

Lemma digit_value_range (key : ascii) :
  char_between "0" "9" key = true -> 0 <= ord key - ord "0" <= 9.
Proof.
  unfold char_between. change (ord "0") with 48. change (ord "9") with 57. lia.
Qed.

Lemma decimal_from_grows (digits : list ascii) (t : Z) :
  Forall (fun key => char_between "0" "9" key = true) digits ->
  0 <= t -> t <= decimal_from t digits.
Proof.
  intros Hdigits. revert t.
  induction Hdigits as [|key digits Hkey _ IH]; intros t Ht; [cbn; lia|].
  unfold decimal_from. cbn [fold_left].
  pose proof (digit_value_range key Hkey).
  specialize (IH (t * 10 + (ord key - ord "0"))). unfold decimal_from in IH. lia.
Qed.

Lemma goto_same {E : Type} `{EEPROMClass E} (m : Machine E) (f : Frame) :
  frame m = f -> goto m f = m.
Proof. intros <-. destruct m. reflexivity. Qed.

Lemma setMaxVoters_digits {E : Type} `{EEPROMClass E} (digits : list ascii)
      (m : Machine E) (t : Z) :
  frame m = InSetMaxVoters t ->
  Forall (fun key => char_between "0" "9" key = true) digits ->
  0 <= t -> decimal_from t digits < 2 ^ 31 ->
  run m (map Key digits) = goto m (InSetMaxVoters (decimal_from t digits)).
Proof.
  intros Hframe Hdigits. revert m t Hframe.
  induction Hdigits as [|key digits Hkey Hrest IH]; intros m t Hframe Ht Hfits.
  - cbn. symmetry. apply goto_same, Hframe.
  - rewrite run_cons.
    pose proof (digit_value_range key Hkey) as Hd.
    assert (Hnext : 0 <= t * 10 + (ord key - ord "0")) by lia.
    pose proof (decimal_from_grows digits _ Hrest Hnext) as Hgrow.
    change (decimal_from t (key :: digits))
      with (decimal_from (t * 10 + (ord key - ord "0")) digits) in *.
    assert (Hstep : fst (step m key)
                    = goto m (InSetMaxVoters (t * 10 + (ord key - ord "0")))).
    { unfold step. rewrite Hframe. unfold setMaxVoters_key. rewrite Hkey.
      cbn [fst]. rewrite wrap32_small; [reflexivity|].
      change (2 ^ 31) with 2147483648 in *. lia. }
    rewrite Hstep. rewrite (IH _ (t * 10 + (ord key - ord "0"))); auto.
Qed.

(** X12: in [setMaxVoters], after digits whose decimal value [n] fits an
    [int], the key [#] stores, and sets [maxVoters] to, [n] when
    1 <= n <= 65535 and 65535 otherwise (so also when no digit or only
    zeros were typed); the stored cap is never 0, each of the six stored
    counts is untouched and the admin menu follows. *)
Theorem setMaxVoters_commit (m : Machine RamEEPROM) (digits : list ascii) :
  frame m = InSetMaxVoters 0 ->
  Forall (fun key => char_between "0" "9" key = true) digits ->
  decimal_from 0 digits < 2 ^ 31 ->
  readIntFromEEPROM (EEPROM (globals (run m (map Key digits ++ [Key "#"])))) 200
  = committed_maxVoters (decimal_from 0 digits)
  /\ maxVoters (globals (run m (map Key digits ++ [Key "#"])))
     = committed_maxVoters (decimal_from 0 digits)
  /\ (1 <= decimal_from 0 digits <= 65535 ->
      committed_maxVoters (decimal_from 0 digits) = decimal_from 0 digits)
  /\ (decimal_from 0 digits = 0 \/ 65535 < decimal_from 0 digits ->
      committed_maxVoters (decimal_from 0 digits) = 65535)
  /\ (forall j, 0 <= j <= 5 ->
        voteCount (EEPROM (globals (run m (map Key digits ++ [Key "#"])))) j
        = voteCount (EEPROM (globals m)) j)
  /\ frame (run m (map Key digits ++ [Key "#"])) = InAdminMenu.
Proof.
  intros Hframe Hdigits Hfits.
  unfold run at 1 2 3 4. rewrite fold_left_app.
  change (fold_left feed (map Key digits) m) with (run m (map Key digits)).
  rewrite (setMaxVoters_digits digits m 0 Hframe Hdigits) by (assumption || lia).
  cbn [fold_left feed]. unfold step. cbn [frame goto].
  unfold setMaxVoters_key.
  change (char_between "0" "9" "#") with false.
  change (char_eq "#" "#") with true. cbv iota.
  unfold enter_showAdminMenu, with_globals, goto.
  cbn [fst globals EEPROM maxVoters frame].
  destruct (cap_write_values (EEPROM (globals m)) (decimal_from 0 digits))
    as [_ ->].
  split; [reflexivity|]. split; [reflexivity|].
  split; [|split; [|split; [|reflexivity]]].
  - intros Hn. unfold committed_maxVoters.
    destruct (Z.geb_spec (decimal_from 0 digits) 1),
      (Z.leb_spec (decimal_from 0 digits) 65535); cbn [andb]; lia.
  - intros Hn. unfold committed_maxVoters.
    destruct (Z.geb_spec (decimal_from 0 digits) 1),
      (Z.leb_spec (decimal_from 0 digits) 65535); cbn [andb]; lia.
  - intros j Hj. unfold voteCount. apply readInt_writeInt_other. lia.
Qed.

Lemma setMaxVoters_commit_witness :
  readIntFromEEPROM
    (EEPROM (globals (run (run fresh_device (keys "11101*3"))
                          (map Key ["2"; "5"; "0"]%char ++ [Key "#"])))) 200
  = committed_maxVoters (decimal_from 0 ["2"; "5"; "0"]%char)
  /\ committed_maxVoters (decimal_from 0 ["2"; "5"; "0"]%char) = 250.
Proof.
  destruct (setMaxVoters_commit (run fresh_device (keys "11101*3"))
                                ["2"; "5"; "0"]%char)
    as (Hstored & _ & Hin & _).
  - reflexivity.
  - repeat constructor.
  - vm_compute. reflexivity.
  - split; [exact Hstored|]. rewrite Hin; [reflexivity|]. vm_compute.
    split; discriminate.
Defined.

(** ** More on the password box *)

Lemma length_append_char (s : string) (c : ascii) :
  String.length (s ++ String c "") = S (String.length s).
Proof. induction s as [|a s IH]; cbn; [reflexivity|]. rewrite IH. reflexivity. Qed.

(** X13: whatever key is polled, the password box is left only by [*]
    with the text "1101": any other key leaves the globals and the call
    stack alone and keeps the box polling for the same function, with a
    text that never grows beyond 8 characters and that [#] empties. *)
Theorem password_box_holds {E : Type} `{EEPROMClass E}
        (m : Machine E) (callbackFunction : Callback) (enteredPassword : string)
        (key : ascii) :
  frame m = InPasswordBox callbackFunction enteredPassword ->
  (String.length enteredPassword <= 8)%nat ->
  grants (frame m) key = false ->
  globals (fst (step m key)) = globals m
  /\ suspended (fst (step m key)) = suspended m
  /\ exists enteredPassword',
      frame (fst (step m key)) = InPasswordBox callbackFunction enteredPassword'
      /\ (String.length enteredPassword' <= 8)%nat
      /\ (char_eq key "#" = true -> enteredPassword' = ""%string).
Proof.
  intros Hframe Hlen Hdenied. rewrite Hframe in Hdenied. cbn [grants] in Hdenied.
  unfold step. rewrite Hframe. unfold showPasswordBox_key.
  destruct (char_eq key NUL) eqn:Hnul.
  { cbn. split; [reflexivity|]. split; [reflexivity|].
    exists enteredPassword. split; [assumption|]. split; [assumption|].
    intros Hhash. apply char_eq_true in Hnul, Hhash. subst key. discriminate. }
  destruct (char_eq key "*") eqn:Hstar.
  { cbn [andb] in Hdenied. rewrite Hdenied.
    assert (Hnot : char_eq key "#" = false).
    { apply char_eq_true in Hstar. subst key. reflexivity. }
    rewrite Hnot.
    destruct (_ =? _)%nat; cbn;
      (split; [reflexivity|]; split; [reflexivity|];
       exists ""%string; split; [reflexivity|]; split; [cbn; lia|discriminate]). }
  destruct (char_eq key "#") eqn:Hhash.
  { cbn. split; [reflexivity|]. split; [reflexivity|].
    exists ""%string. split; [reflexivity|]. split; [cbn; lia|reflexivity]. }
  destruct (Nat.ltb_spec (String.length enteredPassword) 8) as [Hroom|_];
    cbn [andb].
  - destruct (char_between "0" "6" key); cbn.
    + split; [reflexivity|]. split; [reflexivity|].
      eexists. split; [reflexivity|]. rewrite length_append_char.
      split; [cbn; lia|discriminate].
    + split; [reflexivity|]. split; [reflexivity|].
      exists enteredPassword. split; [assumption|]. split; [cbn; lia|discriminate].
  - cbn. split; [reflexivity|]. split; [reflexivity|].
    exists enteredPassword. split; [assumption|]. split; [cbn; lia|discriminate].
Qed.

Lemma password_box_holds_witness :
  globals (fst (step (run fresh_device (keys "11109")) "*"))
  = globals (run fresh_device (keys "11109"))
  /\ suspended (fst (step (run fresh_device (keys "11109")) "*"))
     = suspended (run fresh_device (keys "11109")).
Proof.
  destruct (password_box_holds (run fresh_device (keys "11109"))
                               showAdminMenu "110" "*")
    as (Hglobals & Hstack & _).
  - reflexivity.
  - cbn. lia.
  - reflexivity.
  - exact (conj Hglobals Hstack).
Defined.



(** ** In front of the password box *)

Lemma password_box_stays {E : Type} `{EEPROMClass E}
      (m : Machine E) (cb : Callback) (pw : string) (key : ascii) :
  frame m = InPasswordBox cb pw ->
  grants (frame m) key = false ->
  globals (fst (step m key)) = globals m
  /\ suspended (fst (step m key)) = suspended m
  /\ exists pw', frame (fst (step m key)) = InPasswordBox cb pw'.
Proof.
  intros Hframe Hdenied. rewrite Hframe in Hdenied. cbn [grants] in Hdenied.
  unfold step. rewrite Hframe. unfold showPasswordBox_key.
  destruct (char_eq key NUL); [cbn; eauto|].
  destruct (char_eq key "*").
  - cbn [andb] in Hdenied. rewrite Hdenied.
    destruct (_ =? _)%nat; cbn; eauto.
  - repeat case_match; cbn; eauto.
Qed.

Lemma door_step {E : Type} `{EEPROMClass E} (m : Machine E) (key : ascii) :
  at_the_door (frame m) = true -> suspended m = 0%nat ->
  grants (frame m) key = false ->
  globals (fst (step m key)) = globals m
  /\ at_the_door (frame (fst (step m key))) = true
  /\ suspended (fst (step m key)) = 0%nat.
Proof.
  intros Hdoor Hstack Hdenied.
  destruct (frame m) as [| |cb pw| | | | | | |] eqn:Hframe; try discriminate.
  - unfold step. rewrite Hframe. unfold loop_key.
    repeat case_match; cbn; rewrite ?Hframe; auto.
  - unfold step. rewrite Hframe.
    unfold showResetMenu_key, enter_showPasswordBox, do_return.
    rewrite Hstack.
    destruct (char_eq key "1"); [cbn; auto|].
    destruct (char_eq key "2"); [cbn; auto|].
    destruct (char_eq key "*"); cbn; rewrite ?Hframe; auto.
  - assert (Hgrants : grants (frame m) key = false)
      by (rewrite Hframe; exact Hdenied).
    destruct (password_box_stays m cb pw key Hframe Hgrants)
      as (Hg & Hs & pw' & Hf).
    rewrite Hg, Hs, Hf. auto.
Qed.

(** X15: from power-on (main menu, nothing on the call stack) until some
    [*] confirms the text "1101", no sequence of keys changes a global or
    a stored byte, and the sketch stays in [loop], the main menu or a
    password box. *)
Theorem no_entry_without_password {E : Type} `{EEPROMClass E}
        (m : Machine E) (pressed : list ascii) :
  at_the_door (frame m) = true ->
  suspended m = 0%nat ->
  denied m pressed = true ->
  globals (run m (map Key pressed)) = globals m
  /\ at_the_door (frame (run m (map Key pressed))) = true
  /\ suspended (run m (map Key pressed)) = 0%nat.
Proof.
  revert m. induction pressed as [|key pressed IH]; intros m Hdoor Hstack Hdenied.
  - cbn. auto.
  - cbn [denied] in Hdenied. apply andb_true_iff in Hdenied as [Hkey Hrest].
    apply negb_true_iff in Hkey.
    destruct (door_step m key Hdoor Hstack Hkey) as (Hg & Hd & Hs).
    rewrite run_cons.
    destruct (IH (fst (step m key)) Hd Hs Hrest) as (Hg' & Hd' & Hs').
    rewrite Hg', Hg. auto.
Qed.

Lemma no_entry_without_password_witness :
  globals (run fresh_device
               (map Key ["1"; "1"; "1"; "1"; "1"; "*"; "#"; "0"; "0"; "0"; "0";
                         "*"; "*"; "2"; "1"; "0"; "1"; "*"]%char))
  = globals fresh_device.
Proof.
  apply (no_entry_without_password fresh_device); reflexivity.
Defined.

(** X16: the main menu reached from an admin menu opened from
    [enableCandidates] is still inside the first admin menu's call: after
    the keys 1, #, # from the admin menu the main menu is shown, and [*]
    there only highlights the "*: Select" line and returns into the admin
    loop: no password box is shown, the admin menu is not redrawn, and the
    machine is exactly as it was before the four keys. *)
Theorem main_menu_resumes_admin {E : Type} `{EEPROMClass E} (m : Machine E) :
  frame m = InAdminMenu ->
  frame (run m (keys "1##")) = InResetMenu
  /\ snd (step (run m (keys "1#")) "#") = [Show MainMenuScreen]
  /\ step (run m (keys "1##")) "*" = (m, [Show (Highlight "*: Select")]).
Proof.
  intros Hframe. destruct m as [g f s]. cbn in Hframe. subst f.
  split; [reflexivity|]. split; reflexivity.
Qed.

Lemma main_menu_resumes_admin_witness :
  step (run (run fresh_device (keys "11101*")) (keys "1##")) "*"
  = (run fresh_device (keys "11101*"), [Show (Highlight "*: Select")]).
Proof.
  apply (main_menu_resumes_admin (run fresh_device (keys "11101*"))).
  reflexivity.
Defined.

(** ** getDebouncedKey *)

Lemma char_eq_refl (a : ascii) : char_eq a a = true.
Proof. apply Z.eqb_refl. Qed.

Lemma held_after_report (times : list Z) (d : Debounce) (key : ascii) :
  lastKey d = key ->
  reported (poll_all d (map (fun now => (key, now)) times)) = 0%nat.
Proof.
  revert d. induction times as [|now times IH]; intros d Hlast; [reflexivity|].
  cbn [map poll_all]. unfold getDebouncedKey.
  destruct (char_eq key NUL) eqn:Hnul; cbn [negb].
  - unfold reported. cbn [List.filter]. rewrite char_eq_refl. cbn [negb].
    apply IH. cbn. apply char_eq_true in Hnul. congruence.
  - rewrite Hlast, char_eq_refl. cbn [negb].
    unfold reported. cbn [List.filter]. rewrite char_eq_refl. cbn [negb].
    apply IH, Hlast.
Qed.

(** X17: however often and whenever [getDebouncedKey] is called while the
    keypad keeps giving the same key, it returns that key at most once;
    what it returns is the key given or nothing; after a call that saw no
    key, a key given more than 50 ms (modulo 2^32) after the last returned
    key is returned at once, even if it is the same key; and a key given
    within 50 ms of the last returned key is not returned. *)
Theorem debounce_reports (d : Debounce) (key : ascii) :
  (forall times : list Z,
      (reported (poll_all d (map (fun now => (key, now)) times)) <= 1)%nat)
  /\ (forall now, fst (getDebouncedKey d key now) = key
                  \/ fst (getDebouncedKey d key now) = NUL)
  /\ (forall t0 t1,
         char_eq key NUL = false ->
         debounceDelay < ulong (t1 - lastDebounceTime d) ->
         poll_all d [(NUL, t0); (key, t1)] = [NUL; key])
  /\ (forall now,
         ulong (now - lastDebounceTime d) <= debounceDelay ->
         fst (getDebouncedKey d key now) = NUL
         /\ lastDebounceTime (snd (getDebouncedKey d key now))
            = lastDebounceTime d).
Proof.
  split; [|split; [|split]].
  - intros times. revert d.
    induction times as [|now times IH]; intros d; [cbn; lia|].
    cbn [map poll_all]. unfold getDebouncedKey.
    destruct (char_eq key NUL) eqn:Hnul; cbn [negb].
    + unfold reported. cbn [List.filter]. rewrite char_eq_refl. cbn [negb].
      apply IH.
    + destruct (char_eq key (lastKey d)); cbn [negb].
      * unfold reported. cbn [List.filter]. rewrite char_eq_refl. cbn [negb].
        apply IH.
      * destruct (_ >? _).
        -- unfold reported. cbn [List.filter]. rewrite Hnul. cbn [negb length].
           pose proof (held_after_report times
                         {| lastDebounceTime := now; lastKey := key |} key
                         eq_refl) as Hrest.
           unfold reported in Hrest. rewrite Hrest. lia.
        -- unfold reported. cbn [List.filter]. rewrite char_eq_refl.
           cbn [negb]. apply IH.
  - intros now. unfold getDebouncedKey.
    repeat case_match; cbn; auto.
  - intros t0 t1 Hnul Hlate. cbn [poll_all]. unfold getDebouncedKey.
    rewrite char_eq_refl. cbn [negb lastDebounceTime lastKey].
    rewrite !Hnul. cbn [negb].
    destruct (Z.gtb_spec (ulong (t1 - lastDebounceTime d)) debounceDelay);
      [reflexivity|lia].
  - intros now Hearly. unfold getDebouncedKey.
    destruct (Z.gtb_spec (ulong (now - lastDebounceTime d)) debounceDelay);
      [lia|].
    repeat case_match; cbn; auto.
Qed.

Lemma debounce_reports_witness :
  poll_all {| lastDebounceTime := 1000; lastKey := "5" |}
           [(NUL, 1010); ("5"%char, 1051)]
  = [NUL; "5"%char].
Proof.
  apply (proj1 (proj2 (proj2 (debounce_reports
                                {| lastDebounceTime := 1000; lastKey := "5" |}
                                "5")))).
  - reflexivity.
  - vm_compute. reflexivity.
Defined.

(** ** Leaving and re-entering the admin menu *)

Lemma run_app {E : Type} `{EEPROMClass E} (m : Machine E) (a b : list Input) :
  run m (a ++ b) = run (run m a) b.
Proof. apply fold_left_app. Qed.

(** X18: [enableCandidates] does not return to the admin menu that called
    it but calls [showAdminMenu] again: each visit (key 1, then #) leaves
    one more admin loop waiting on the call stack, so n visits leave n
    more, while the globals stay as they were. *)
Theorem admin_menu_nests {E : Type} `{EEPROMClass E} (m : Machine E) (n : nat) :
  frame m = InAdminMenu ->
  frame (run m (concat (repeat (keys "1#") n))) = InAdminMenu
  /\ suspended (run m (concat (repeat (keys "1#") n))) = (n + suspended m)%nat
  /\ globals (run m (concat (repeat (keys "1#") n))) = globals m.
Proof.
  revert m. induction n as [|n IH]; intros m Hframe; [cbn; auto|].
  cbn [repeat concat]. rewrite run_app.
  assert (Hvisit : run m (keys "1#")
                   = {| globals := globals m; frame := InAdminMenu;
                        suspended := S (suspended m) |}).
  { destruct m as [g f s]. cbn in Hframe. subst f. reflexivity. }
  rewrite Hvisit.
  destruct (IH {| globals := globals m; frame := InAdminMenu;
                  suspended := S (suspended m) |} eq_refl) as (Hf & Hs & Hg).
  rewrite Hf, Hs, Hg. cbn [suspended globals]. split; [reflexivity|].
  split; [lia|reflexivity].
Qed.

Lemma admin_menu_nests_witness :
  suspended (run (run fresh_device (keys "11101*"))
                 (concat (repeat (keys "1#") 3)))
  = (3 + suspended (run fresh_device (keys "11101*")))%nat.
Proof.
  apply (admin_menu_nests (run fresh_device (keys "11101*")) 3). reflexivity.
Defined.

Lemma results_graph_results {E : Type} `{EEPROMClass E} (m : Machine E) :
  frame m = InResults ->
  readIntFromEEPROM (EEPROM (globals m)) 200 <> 0 ->
  run m (keys "*#") = m.
Proof.
  intros Hframe Hcap. destruct m as [g f s]. cbn in Hframe, Hcap. subst f.
  unfold run, keys. cbn [list_ascii_of_string map fold_left feed].
  unfold step at 2. cbn [frame]. unfold showResults_key.
  change (char_eq "*" "*") with true. cbv iota.
  unfold enter_showGraph, goto. cbn [fst globals suspended].
  unfold step. cbn [frame]. unfold showGraph_key.
  change (char_eq "#" "#") with true. cbv iota.
  unfold enter_showResults. cbn [globals].
  destruct (showResults (EEPROM g)) eqn:Hshow; [reflexivity|].
  apply showResults_divides_by_cap in Hshow. contradiction.
Qed.

(** X19: with a stored cap other than 0, looking at the results from the
    admin menu, switching to the graph and back any number of times, and
    leaving with [#] puts the machine back exactly where it was: same
    globals, same admin loop, same call stack. *)
Theorem results_round_trip {E : Type} `{EEPROMClass E} (m : Machine E) (n : nat) :
  frame m = InAdminMenu ->
  readIntFromEEPROM (EEPROM (globals m)) 200 <> 0 ->
  run m (keys "2" ++ concat (repeat (keys "*#") n) ++ keys "#") = m.
Proof.
  intros Hframe Hcap. rewrite !run_app.
  assert (Hopen : run m (keys "2")
                  = {| globals := globals m; frame := InResults;
                       suspended := S (suspended m) |}).
  { destruct m as [g f s]. cbn in Hframe, Hcap. subst f.
    unfold run, keys. cbn [list_ascii_of_string map fold_left feed].
    unfold step. cbn [frame]. unfold showAdminMenu_key.
    change (char_eq "2" "1") with false. change (char_eq "2" "2") with true.
    cbv iota. unfold enter_showResults, call_from_admin, goto. cbn [globals].
    destruct (showResults (EEPROM g)) eqn:Hshow; [reflexivity|].
    apply showResults_divides_by_cap in Hshow. contradiction. }
  rewrite Hopen.
  assert (Hloop : run {| globals := globals m; frame := InResults;
                         suspended := S (suspended m) |}
                      (concat (repeat (keys "*#") n))
                  = {| globals := globals m; frame := InResults;
                       suspended := S (suspended m) |}).
  { induction n as [|n IH]; [reflexivity|].
    cbn [repeat concat]. rewrite run_app.
    rewrite results_graph_results by (cbn; auto). exact IH. }
  rewrite Hloop. destruct m as [g f s]. cbn in Hframe. subst f. reflexivity.
Qed.

Lemma results_round_trip_witness :
  run (run fresh_device (keys "11101*"))
      (keys "2" ++ concat (repeat (keys "*#") 2) ++ keys "#")
  = run fresh_device (keys "11101*").
Proof.
  apply (results_round_trip (run fresh_device (keys "11101*")) 2).
  - reflexivity.
  - vm_compute. discriminate.
Defined.
